(** * fastpdf-go: a shallow embedding of the FastPDF client library

    The Go package [fastpdf] (api.go, errors.go) is a thin client of a
    remote PDF service.  This development embeds its functions as Rocq
    definitions and proves the properties its specification states.

    Conventions of the embedding:
    - a Go [string] is a [string]; a Go [[]byte] is a [slice byte], where
      [None] is the nil slice;
    - a Go [int] is a [Z] (64-bit range checked where it matters);
    - [http.Header] and [map[string]string] are stdpp [gmap]s;
    - mutation through a pointer to the client is explicit state passing;
    - the file system and the network are an explicit [World] threaded
      through a small state monad;
    - functions of the Go standard library whose results are not decided by
      this repository (MIME tables, content sniffing, URL validation, the
      zip decoder, the remote service) are fields of the class [Platform]. *)

From Stdlib Require Import ZArith Ascii String DecimalString DecimalZ.
From Stdlib.Strings Require Import Byte.
From stdpp Require Import gmap strings list fin_maps.

Local Open Scope string_scope.
Local Open Scope list_scope.
Local Open Scope Z_scope.

(** ** Go values *)

(** A Go slice: [None] is the nil slice, [Some l] a non-nil slice. *)
Definition slice (A : Type) : Type := option (list A).

Definition slice_elems {A} (s : slice A) : list A := default [] s.

#[export] Instance byte_eq_decision : EqDecision byte := byte_eq_dec.

(** [string(b)] and [[]byte(s)]. *)
Definition string_of_bytes (b : list byte) : string := string_of_list_byte b.
Definition bytes_of_string (s : string) : list byte := list_byte_of_string s.

(** ** errors.go *)

Record PDFError := mkPDFError {
  StatusCode : Z;
  Status : string;
  Response : string;
  Message : string;
}.

(** The Go [error] interface, with the dynamic types this package meets. *)
Inductive error :=
| PDFErr (e : PDFError)               (* *PDFError *)
| Errorf (msg : string)               (* fmt.Errorf *)
| PathError (op path msg : string)    (* *fs.PathError, from package os *)
| ExternalErr (msg : string).         (* net/http, net/url, archive/zip, io *)

Inductive Result (A : Type) :=
| Ok (a : A)
| Err (e : error).
Arguments Ok {A} a.
Arguments Err {A} e.

(** An [io.Reader]: chunks of data ended by EOF or by a read error. *)
Inductive Stream :=
| SEOF
| SChunk (data : list byte) (rest : Stream)
| SErr (e : error).

(** [io.ReadAll]: the data read until EOF (then no error) or until the first
    error (then the data read so far and that error).  The slice returned is
    never nil. *)
Fixpoint io_ReadAll (r : Stream) : list byte * option error :=
  match r with
  | SEOF => ([], None)
  | SChunk data rest =>
      let '(more, err) := io_ReadAll rest in (data ++ more, err)
  | SErr e => ([], Some e)
  end.

(** [http.Response], as far as this package looks at it. *)
Record HTTPResponse := mkResponse {
  RespStatusCode : Z;
  RespStatus : string;
  RespBody : Stream;
}.

Definition http_StatusOK : Z := 200.

(** [NewPDFError] never sets the field [Status]: in Go it keeps its zero
    value, the empty string. *)
Definition NewPDFError (resp : HTTPResponse) : PDFError :=
  let '(bodyBytes, err) := io_ReadAll (RespBody resp) in
  let bodyBytes :=
    match err with
    | Some _ => bytes_of_string "failed to read response body"
    | None => bodyBytes
    end in
  {| StatusCode := RespStatusCode resp;
     Status := "";
     Response := string_of_bytes bodyBytes;
     Message := "Server returned an HTTP error" |}.

(** ** api.go: the client and its construction *)

Record PDFClient := mkPDFClient {
  APIVersion : string;
  BaseURL : string;
  APIKey : string;
  Headers : gmap string (list string);
  SupportedImageFormats : list string;
}.

(** An option is a Go function on a pointer to the client: it mutates the
    client it is given. *)
Definition ClientOption : Type := PDFClient → PDFClient.

Definition SetBaseURL (url : string) : ClientOption :=
  λ c, {| APIVersion := APIVersion c; BaseURL := url; APIKey := APIKey c;
          Headers := Headers c;
          SupportedImageFormats := SupportedImageFormats c |}.

Definition SetAPIVersion (version : string) : ClientOption :=
  λ c, {| APIVersion := version; BaseURL := BaseURL c; APIKey := APIKey c;
          Headers := Headers c;
          SupportedImageFormats := SupportedImageFormats c |}.

Definition defaultClient (apiKey : string) : PDFClient :=
  {| APIVersion := "v1";
     BaseURL := "https://data.fastpdfservice.com";
     APIKey := apiKey;
     Headers := {[ "Authorization" := [apiKey] ]};
     SupportedImageFormats :=
       ["jpeg"; "png"; "gif"; "bmp"; "tiff"; "webp"; "svg"; "ico"; "pdf";
        "psd"; "ai"; "eps"; "cr2"; "nef"; "sr2"; "orf"; "rw2"; "dng";
        "arw"; "heic"] |}.

(** [for _, option := range options { option(client) }] *)
Definition applyOptions (options : list ClientOption) (client : PDFClient)
  : PDFClient :=
  foldl (λ c option, option c) client options.

(** [fmt.Sprintf("%s/%s", a, b)] *)
Definition sprintf_s_slash_s (a b : string) : string := a +:+ "/" +:+ b.

Definition NewPDFClient (apiKey : string) (options : list ClientOption)
  : PDFClient :=
  let client := applyOptions options (defaultClient apiKey) in
  {| APIVersion := APIVersion client;
     BaseURL := sprintf_s_slash_s (BaseURL client) (APIVersion client);
     APIKey := APIKey client;
     Headers := Headers client;
     SupportedImageFormats := SupportedImageFormats client |}.

(** The two options of the package leave the key and the headers alone. *)
Inductive is_setter : ClientOption → Prop :=
| setter_url url : is_setter (SetBaseURL url)
| setter_version v : is_setter (SetAPIVersion v).


(** ** Dynamic values *)

(** A value of Go's [interface{}], with the dynamic types a caller can pass
    as the [file] argument.  [VOther t] is a value of any type other than
    [string] and [[]byte]; [t] is what the verb [%T] prints for it. *)
Inductive GoValue :=
| VString (s : string)
| VBytes (b : slice byte)
| VInt (n : Z)
| VBool (b : bool)
| VNil
| VOther (type : string).

(** [fmt.Sprintf("%T", v)] *)
Definition typeName (v : GoValue) : string :=
  match v with
  | VString _ => "string"
  | VBytes _ => "[]uint8"
  | VInt _ => "int"
  | VBool _ => "bool"
  | VNil => "<nil>"
  | VOther t => t
  end.

(** ** The outside world *)

(** The body of a multipart/form-data request, as the list of its parts.
    The byte encoding (boundary lines, part headers) is not modelled. *)
Inductive Part :=
| FilePart (fieldname filename : string) (content : list byte)
| FieldPart (fieldname value : string).

Record HTTPRequest := mkRequest {
  Method : string;
  URL : string;
  Header : gmap string (list string);
  Body : list Part;
}.

(** A file of a zip archive: [Name], [Mode()] and what [Open()] gives. *)
Record ZipFile := mkZipFile {
  zf_Name : string;
  zf_Mode : Z;
  zf_Open : Result Stream;
}.

(** The file system is a flat map from path to node: parent directories are
    not tracked, and of the ways a call of package os can fail only those
    that show in this map are modelled.  A property that needs such a call
    to succeed takes its success as a hypothesis. *)
Inductive Node :=
| NFile (mode : Z) (data : list byte)
| NDir (mode : Z).

(** [sent] logs every request handed to the HTTP transport, oldest first. *)
Record World := mkWorld {
  fs : gmap string Node;
  sent : list HTTPRequest;
}.

Definition M (A : Type) : Type := World → A * World.

#[export] Instance M_ret : MRet M := λ A a w, (a, w).
#[export] Instance M_bind : MBind M :=
  λ A B f m w, let '(a, w') := m w in f a w'.

(** What the Go standard library and the environment decide. *)
Class Platform := {
  filepath_Base : string → string;
  filepath_Ext : string → string;
  filepath_Join : string → string → string;
  mime_TypeByExtension : string → string;
  http_DetectContentType : list byte → string;
  (** why [url.Parse] rejects a URL, if it does *)
  url_Parse : string → option error;
  (** the boundary [multipart.NewWriter] draws at random *)
  multipart_boundary : string;
  (** the network and the remote service *)
  roundTrip : HTTPRequest → Result HTTPResponse;
  zip_NewReader : list byte → Result (list ZipFile);
  (** [json.Marshal] on a [map[string]string] *)
  json_Marshal_map : gmap string string → Result string;
  (** the order in which [range] visits a map: unspecified, but every entry
      is visited once *)
  rangeMap : ∀ A, gmap string A → list (string * A);
  rangeMap_perm : ∀ A (m : gmap string A), rangeMap A m ≡ₚ map_to_list m;
}.
Arguments rangeMap {_ _} m.

(** *** Package os *)

Definition os_ModePerm : Z := 511.        (* 0777 *)
Definition fs_ModeDir : Z := Z.shiftl 1 31.
Definition FileMode_IsDir (m : Z) : bool := negb (Z.land m fs_ModeDir =? 0).

Definition set_fs (f : gmap string Node) (w : World) : World :=
  {| fs := f; sent := sent w |}.

(** [os.ReadFile] returns a slice and an error.  When the file cannot be
    opened the slice is nil; when it opens and reading fails (as on a
    directory) the slice is what was read so far, not nil. *)
Definition os_ReadFile (name : string) : M (slice byte * option error) :=
  λ w,
  match fs w !! name with
  | Some (NFile _ data) => ((Some data, None), w)
  | Some (NDir _) =>
      ((Some [], Some (PathError "read" name "is a directory")), w)
  | None =>
      ((None, Some (PathError "open" name "no such file or directory")), w)
  end.

(** [os.WriteFile]: create the file with mode [perm], or truncate it. *)
Definition os_WriteFile (name : string) (data : list byte) (perm : Z)
  : M (option error) :=
  λ w,
  match fs w !! name with
  | Some (NDir _) => (Some (PathError "open" name "is a directory"), w)
  | Some (NFile mode _) => (None, set_fs (<[name := NFile mode data]> (fs w)) w)
  | None => (None, set_fs (<[name := NFile perm data]> (fs w)) w)
  end.

Definition os_MkdirAll (path : string) (perm : Z) : M (option error) :=
  λ w,
  match fs w !! path with
  | Some (NDir _) => (None, w)
  | Some (NFile _ _) => (Some (PathError "mkdir" path "not a directory"), w)
  | None => (None, set_fs (<[path := NDir perm]> (fs w)) w)
  end.

(** [os.OpenFile(name, O_WRONLY|O_CREATE|O_TRUNC, perm)]; the handle of the
    open file is its path. *)
Definition os_OpenFile_create_trunc (name : string) (perm : Z)
  : M (Result string) :=
  λ w,
  match fs w !! name with
  | Some (NDir _) => (Err (PathError "open" name "is a directory"), w)
  | Some (NFile mode _) => (Ok name, set_fs (<[name := NFile mode []]> (fs w)) w)
  | None => (Ok name, set_fs (<[name := NFile perm []]> (fs w)) w)
  end.

Definition File_Write (f : string) (data : list byte) : M unit :=
  λ w,
  let grow n := match n with
                | NFile mode old => NFile mode (old ++ data)
                | NDir mode => NDir mode
                end in
  ((), set_fs (alter grow f (fs w)) w).

(** [io.Copy(f, rc)]: what was read before an error stays written. *)
Fixpoint io_Copy (f : string) (rc : Stream) : M (option error) :=
  match rc with
  | SEOF => mret None
  | SChunk data rest => File_Write f data ≫= λ _, io_Copy f rest
  | SErr e => mret (Some e)
  end.

(** *** Package net/textproto and net/http *)

Definition is_lower (c : ascii) : bool :=
  let n := N_of_ascii c in ((97 <=? n) && (n <=? 122))%N.
Definition is_upper (c : ascii) : bool :=
  let n := N_of_ascii c in ((65 <=? n) && (n <=? 90))%N.
Definition is_digit (c : ascii) : bool :=
  let n := N_of_ascii c in ((48 <=? n) && (n <=? 57))%N.

(** The bytes allowed in a header field name (RFC 7230 token). *)
Definition validHeaderFieldByte (c : ascii) : bool :=
  is_lower c || is_upper c || is_digit c ||
  bool_decide (c ∈ ["!"; "#"; "$"; "%"; "&"; "'"; "*"; "+"; "-"; ".";
                    "^"; "_"; "`"; "|"; "~"]%char).

Fixpoint canonicalize (upper : bool) (s : string) : string :=
  match s with
  | EmptyString => EmptyString
  | String c rest =>
      let n := N_of_ascii c in
      let c' := if upper && is_lower c then ascii_of_N (n - 32)
                else if negb upper && is_upper c then ascii_of_N (n + 32)
                else c in
      String c' (canonicalize (Ascii.eqb c "-") rest)
  end.

Fixpoint all_chars (p : ascii → bool) (s : string) : bool :=
  match s with
  | EmptyString => true
  | String c rest => p c && all_chars p rest
  end.

(** [textproto.CanonicalMIMEHeaderKey]: a name with a byte that is not
    allowed is returned unchanged. *)
Definition CanonicalMIMEHeaderKey (s : string) : string :=
  if all_chars validHeaderFieldByte s then canonicalize true s else s.

Definition Header_Set (h : gmap string (list string)) (key value : string)
  : gmap string (list string) :=
  <[CanonicalMIMEHeaderKey key := [value]]> h.

Definition Header_Add (h : gmap string (list string)) (key value : string)
  : gmap string (list string) :=
  let key := CanonicalMIMEHeaderKey key in
  <[key := default [] (h !! key) ++ [value]]> h.

Definition set_Header (h : gmap string (list string)) (req : HTTPRequest)
  : HTTPRequest :=
  {| Method := Method req; URL := URL req; Header := h; Body := Body req |}.

(** [client.Do(req)]: the request goes out, whatever comes back. *)
Definition http_Do `{Platform} (req : HTTPRequest) : M (Result HTTPResponse) :=
  λ w, (roundTrip req, {| fs := fs w; sent := sent w ++ [req] |}).

Definition http_NewRequest `{Platform} (method url : string) (body : list Part)
  : Result HTTPRequest :=
  match url_Parse url with
  | Some err => Err err
  | None => Ok {| Method := method; URL := url; Header := ∅; Body := body |}
  end.

(** *** Package mime/multipart *)

Record Writer := mkWriter {
  boundary : string;
  parts : list Part;
}.

Definition multipart_NewWriter `{Platform} : Writer :=
  {| boundary := multipart_boundary; parts := [] |}.

(** The writer writes to a [bytes.Buffer], which never reports an error. *)
Definition Writer_CreateFormFile (w : Writer) (fieldname filename : string)
  : Result Writer :=
  Ok {| boundary := boundary w;
        parts := parts w ++ [FilePart fieldname filename []] |}.

Fixpoint append_to_last (ps : list Part) (data : list byte) : list Part :=
  match ps with
  | [] => []
  | [FilePart fieldname filename content] =>
      [FilePart fieldname filename (content ++ data)]
  | p :: rest => p :: append_to_last rest data
  end.

(** [part.Write(data)] on the part that [CreateFormFile] opened. *)
Definition Part_Write (w : Writer) (data : list byte) : Result Writer :=
  Ok {| boundary := boundary w; parts := append_to_last (parts w) data |}.

Definition Writer_WriteField (w : Writer) (fieldname value : string)
  : Result Writer :=
  Ok {| boundary := boundary w;
        parts := parts w ++ [FieldPart fieldname value] |}.

(** [writer.Close()]: the buffer then holds the finished body. *)
Definition Writer_Close (w : Writer) : Result (list Part) := Ok (parts w).

Definition Writer_FormDataContentType (w : Writer) : string :=
  "multipart/form-data; boundary=" +:+ boundary w.

(** *** Package encoding/json *)

(** [strconv.Itoa] *)
Definition itoa (n : Z) : string := NilZero.string_of_int (Z.to_int n).

(** errors.go, [(e *PDFError) Error()]:
    [fmt.Sprintf("%s. Status Code: %d, Response: %s", ...)] *)
Definition PDFError_Error (e : PDFError) : string :=
  Message e +:+ ". Status Code: " +:+ itoa (StatusCode e) +:+
  ", Response: " +:+ Response e.

Definition json_array (items : list string) : string :=
  "[" +:+ String.concat "," items +:+ "]".

(** [json.Marshal] on a [[]int]: a nil slice is [null]. *)
Definition json_encode_ints (s : slice Z) : string :=
  match s with
  | None => "null"
  | Some l => json_array (itoa <$> l)
  end.

Definition json_Marshal_ints (s : slice Z) : Result string :=
  Ok (json_encode_ints s).

(** [json.Marshal] on a [[][]int]. *)
Definition json_encode_intss (s : slice (slice Z)) : string :=
  match s with
  | None => "null"
  | Some l => json_array (json_encode_ints <$> l)
  end.

Definition json_Marshal_intss (s : slice (slice Z)) : Result string :=
  Ok (json_encode_intss s).

(** ** api.go: the operations *)

Section Operations.
Context `{Platform}.

Definition readFile (file : GoValue)
  : M (string * slice byte * string * option error) :=
  let finish (filename : string) (fileContent : slice byte)
             (contentType : string) :=
    let contentType :=
      if decide (contentType = "") then "application/octet-stream"
      else contentType in
    mret (filename, fileContent, contentType, None) in
  match file with
  | VString f =>
      let filename := filepath_Base f in
      '(fileContent, err) ← os_ReadFile f;
      match err with
      | Some err => mret (filename, fileContent, "", Some err)
      | None =>
          finish filename fileContent (mime_TypeByExtension (filepath_Ext f))
      end
  | VBytes f => finish "" f (http_DetectContentType (slice_elems f))
  | _ =>
      mret ("", None, "",
            Some (Errorf ("unsupported file type: " +:+ typeName file)))
  end.

Definition ValidateToken (client : PDFClient) : M (bool * option error) :=
  let url := BaseURL client +:+ "/token" in
  match http_NewRequest "GET" url [] with
  | Err err => mret (false, Some err)
  | Ok req =>
      let req := set_Header (Headers client) req in
      r ← http_Do req;
      match r with
      | Err err => mret (false, Some err)
      | Ok response =>
          if decide (RespStatusCode response ≠ http_StatusOK)
          then mret (false, Some (PDFErr (NewPDFError response)))
          else mret (true, None)
      end
  end.

(** [for key, value := range extraFields { writer.WriteField(key, value) }] *)
Fixpoint writeFields (writer : Writer) (fields : list (string * string))
  : Result Writer :=
  match fields with
  | [] => Ok writer
  | (key, value) :: rest =>
      match Writer_WriteField writer key value with
      | Err err => Err err
      | Ok writer => writeFields writer rest
      end
  end.

(** [for _, value := range values { req.Header.Add(key, value) }] *)
Definition addValues (key : string) (values : list string)
    (h : gmap string (list string)) : gmap string (list string) :=
  foldl (λ h value, Header_Add h key value) h values.

(** [for key, values := range c.Headers { ... }] *)
Definition copyHeaders (headers : list (string * list string))
    (h : gmap string (list string)) : gmap string (list string) :=
  foldl (λ h kv, addValues kv.1 kv.2 h) h headers.

Definition makeMultipartPostRequest (c : PDFClient) (url fileField : string)
    (fileData : slice byte) (filename : string)
    (extraFields : gmap string string) : M (slice byte * option error) :=
  let writer := multipart_NewWriter in
  match Writer_CreateFormFile writer fileField filename with
  | Err err => mret (None, Some err)
  | Ok writer =>
  match Part_Write writer (slice_elems fileData) with
  | Err err => mret (None, Some err)
  | Ok writer =>
  match writeFields writer (rangeMap extraFields) with
  | Err err => mret (None, Some err)
  | Ok writer =>
  match Writer_Close writer with
  | Err err => mret (None, Some err)
  | Ok buffer =>
  match http_NewRequest "POST" url buffer with
  | Err err => mret (None, Some err)
  | Ok req =>
      let req := set_Header (Header_Set (Header req) "Content-Type"
                               (Writer_FormDataContentType writer)) req in
      let req := set_Header (copyHeaders (rangeMap (Headers c)) (Header req))
                            req in
      r ← http_Do req;
      match r with
      | Err err => mret (None, Some err)
      | Ok resp =>
          if decide (RespStatusCode resp ≠ http_StatusOK)
          then mret (None, Some (PDFErr (NewPDFError resp)))
          else let '(body, err) := io_ReadAll (RespBody resp) in
               mret (Some body, err)
      end
  end end end end end.

Definition Save (c : PDFClient) (content : slice byte) (filePath : string)
  : M (slice byte * option error) :=
  if decide (filePath ≠ "") then
    err ← os_WriteFile filePath (slice_elems content) 420 (* 0644 *);
    match err with
    | Some err => mret (None, Some err)
    | None => mret (None, None)
    end
  else mret (content, None).

Definition Split (c : PDFClient) (file : GoValue) (splits : slice Z)
  : M (slice byte * option error) :=
  '(filename, fileContent, _, err) ← readFile file;
  match err with
  | Some err => mret (None, Some err)
  | None =>
      match json_Marshal_ints splits with
      | Err err => mret (None, Some err)
      | Ok splitsData =>
          makeMultipartPostRequest c (BaseURL c +:+ "/pdf/split") "file"
            fileContent filename {[ "splits" := splitsData ]}
      end
  end.

Definition SplitZip (c : PDFClient) (file : GoValue)
    (splits : slice (slice Z)) : M (slice byte * option error) :=
  '(filename, fileContent, _, err) ← readFile file;
  match err with
  | Some err => mret (None, Some err)
  | None =>
      match json_Marshal_intss splits with
      | Err err => mret (None, Some err)
      | Ok splitsData =>
          makeMultipartPostRequest c (BaseURL c +:+ "/pdf/split-zip") "file"
            fileContent filename {[ "splits" := splitsData ]}
      end
  end.

(** The body of [for _, file := range zipReader.File] in [Extract].  The
    result of [os.MkdirAll] is dropped, as in the source. *)
Fixpoint extractFiles (outputPath : string) (files : list ZipFile)
  : M (option error) :=
  match files with
  | [] => mret None
  | file :: rest =>
      let fPath := filepath_Join outputPath (zf_Name file) in
      if FileMode_IsDir (zf_Mode file) then
        _ ← os_MkdirAll fPath os_ModePerm;
        extractFiles outputPath rest
      else
        r ← os_OpenFile_create_trunc fPath (zf_Mode file);
        match r with
        | Err err => mret (Some err)
        | Ok f =>
            match zf_Open file with
            | Err err => mret (Some err)
            | Ok rc =>
                err ← io_Copy f rc;
                match err with
                | Some err => mret (Some err)
                | None => extractFiles outputPath rest
                end
            end
        end
  end.

Definition Extract (c : PDFClient) (zipBytes : slice byte)
    (outputPath : string) : M (option error) :=
  match zip_NewReader (slice_elems zipBytes) with
  | Err err => mret (Some err)
  | Ok files => extractFiles outputPath files
  end.

Definition EditMetadata (c : PDFClient) (file : GoValue)
    (metadata : gmap string string) : M (slice byte * option error) :=
  '(filename, fileContent, _, err) ← readFile file;
  match err with
  | Some err => mret (None, Some err)
  | None =>
      match json_Marshal_map metadata with
      | Err err => mret (None, Some err)
      | Ok metadataJSON =>
          makeMultipartPostRequest c (BaseURL c +:+ "/pdf/metadata") "file"
            fileContent filename {[ "metadata" := metadataJSON ]}
      end
  end.

End Operations.

(** What the extension of a path, or the leading bytes of a buffer, say
    about the content type, before any default. *)
Definition detected_type `{Platform} (file : GoValue) : string :=
  match file with
  | VString f => mime_TypeByExtension (filepath_Ext f)
  | VBytes b => http_DetectContentType (slice_elems b)
  | _ => ""
  end.

(** ** What an operation puts on the wire

    The request that [makeMultipartPostRequest] builds, written out; the
    lemma [makeMultipartPostRequest_run] below shows it is the one sent. *)

Definition field_part (kv : string * string) : Part := FieldPart kv.1 kv.2.

Definition multipartRequest `{Platform} (c : PDFClient)
    (url fileField : string) (fileData : slice byte) (filename : string)
    (extraFields : gmap string string) : HTTPRequest :=
  {| Method := "POST";
     URL := url;
     Header :=
       copyHeaders (rangeMap (Headers c))
         (Header_Set ∅ "Content-Type"
            ("multipart/form-data; boundary=" +:+ multipart_boundary));
     Body := FilePart fileField filename (slice_elems fileData)
               :: (field_part <$> rangeMap extraFields) |}.

Definition tokenRequest (client : PDFClient) : HTTPRequest :=
  {| Method := "GET";
     URL := BaseURL client +:+ "/token";
     Header := Headers client;
     Body := [] |}.

Definition log_request (req : HTTPRequest) (w : World) : World :=
  {| fs := fs w; sent := sent w ++ [req] |}.

(** How a response is turned into the result of an upload. *)
Definition upload_result (r : Result HTTPResponse)
  : slice byte * option error :=
  match r with
  | Err err => (None, Some err)
  | Ok resp =>
      if decide (RespStatusCode resp ≠ http_StatusOK)
      then (None, Some (PDFErr (NewPDFError resp)))
      else (Some (io_ReadAll (RespBody resp)).1, (io_ReadAll (RespBody resp)).2)
  end.

(** How a response is turned into the result of [ValidateToken]. *)
Definition token_result (r : Result HTTPResponse) : bool * option error :=
  match r with
  | Err err => (false, Some err)
  | Ok resp =>
      if decide (RespStatusCode resp ≠ http_StatusOK)
      then (false, Some (PDFErr (NewPDFError resp)))
      else (true, None)
  end.

(** An upload either returns an error without touching the world, or sends
    one request and decides on the answer. *)
Definition upload_outcome `{Platform} (c : PDFClient)
    (op : M (slice byte * option error)) (w : World) : Prop :=
  (∃ err, op w = ((None, Some err), w)) ∨
  (∃ url fileData filename extraFields,
     let req := multipartRequest c url "file" fileData filename extraFields in
     op w = (upload_result (roundTrip req), log_request req w)).

(** [h.Values(key)] *)
Definition Header_Values (h : gmap string (list string)) (key : string)
  : list string :=
  default [] (h !! CanonicalMIMEHeaderKey key).

(** The requests sent between the world [w] and the later world [w']. *)
Definition new_requests (w w' : World) : list HTTPRequest :=
  drop (length (sent w)) (sent w').

(** ** The receiving side: [json.Unmarshal]

    What the service does with the field [splits]: decode it into a
    [[]int] or a [[][]int].  The decoder follows package encoding/json: a
    scanner over the bytes, then a value built with a stack of open
    arrays. *)

Inductive token :=
| TLBrack
| TRBrack
| TComma
| TNull
| TNum (n : Z).

Definition is_space (c : ascii) : bool :=
  bool_decide (c ∈ [" "; "009"; "010"; "013"]%char).

(** The bytes of a literal this decoder knows: an integer or [null]. *)
Definition is_word_char (c : ascii) : bool :=
  is_digit c || is_lower c || Ascii.eqb c "-".

(** The JSON grammar of an integer: an optional minus sign, then [0] alone
    or a digit other than [0] followed by digits. *)
Definition int_literal (w : string) : bool :=
  let digits := match w with
                | String "-" rest => rest
                | _ => w
                end in
  match digits with
  | EmptyString => false
  | String "0" EmptyString => true
  | String c rest =>
      is_digit c && negb (Ascii.eqb c "0") && all_chars is_digit rest
  end.

(** A Go [int] has 64 bits. *)
Definition go_int_ok (n : Z) : bool := (- 2 ^ 63 <=? n) && (n <? 2 ^ 63).

Definition token_of_word (w : string) : option token :=
  if decide (w = "null") then Some TNull
  else if int_literal w then
    match NilZero.int_of_string w with
    | Some d => if go_int_ok (Z.of_int d) then Some (TNum (Z.of_int d))
                else None
    | None => None
    end
  else None.

Definition punct (c : ascii) : option token :=
  if Ascii.eqb c "[" then Some TLBrack
  else if Ascii.eqb c "]" then Some TRBrack
  else if Ascii.eqb c "," then Some TComma
  else None.

(** Emit the literal read so far, if any, before the tokens [k]. *)
Definition flush (word : string) (k : option (list token))
  : option (list token) :=
  if decide (word = "") then k
  else t ← token_of_word word; ts ← k; Some (t :: ts).

Fixpoint lex (word : string) (s : string) : option (list token) :=
  match s with
  | EmptyString => flush word (Some [])
  | String c rest =>
      if is_word_char c then lex (word +:+ String c EmptyString) rest
      else if is_space c then flush word (lex "" rest)
      else match punct c with
           | Some t => flush word (cons t <$> lex "" rest)
           | None => None
           end
  end.

#[local] Set Warnings "-register-all".
Inductive json :=
| JNull
| JNum (n : Z)
| JArr (items : list json).

(** The parser state: the arrays still open, innermost first, each with its
    items so far in reverse. *)
Inductive pstate :=
| PValue (stack : list (list json))   (* a value must follow *)
| PFirst (stack : list (list json))   (* after an opening bracket *)
| PAfter (stack : list (list json))   (* after an item of an array *)
| PDone (v : json).

Definition push (v : json) (stack : list (list json)) : pstate :=
  match stack with
  | [] => PDone v
  | top :: below => PAfter ((v :: top) :: below)
  end.

Definition close (stack : list (list json)) : option pstate :=
  match stack with
  | [] => None
  | top :: below => Some (push (JArr (reverse top)) below)
  end.

Definition value_step (stack : list (list json)) (t : token)
  : option pstate :=
  match t with
  | TNull => Some (push JNull stack)
  | TNum n => Some (push (JNum n) stack)
  | TLBrack => Some (PFirst ([] :: stack))
  | _ => None
  end.

Definition pstep (st : pstate) (t : token) : option pstate :=
  match st, t with
  | PValue stack, _ => value_step stack t
  | PFirst stack, TRBrack => close stack
  | PFirst stack, _ => value_step stack t
  | PAfter stack, TComma => Some (PValue stack)
  | PAfter stack, TRBrack => close stack
  | _, _ => None
  end.

Fixpoint prun (st : pstate) (ts : list token) : option pstate :=
  match ts with
  | [] => Some st
  | t :: rest => st' ← pstep st t; prun st' rest
  end.

Definition parse (ts : list token) : option json :=
  st ← prun (PValue []) ts;
  match st with
  | PDone v => Some v
  | _ => None
  end.

(** Storing a decoded value in a Go [int]: [null] leaves the zero value. *)
Definition json_to_int (j : json) : option Z :=
  match j with
  | JNum n => Some n
  | JNull => Some 0
  | JArr _ => None
  end.

(** ... in a [[]int]: [null] leaves the nil slice. *)
Definition json_to_ints (j : json) : option (slice Z) :=
  match j with
  | JNull => Some None
  | JArr items => Some <$> mapM json_to_int items
  | JNum _ => None
  end.

(** ... in a [[][]int]. *)
Definition json_to_intss (j : json) : option (slice (slice Z)) :=
  match j with
  | JNull => Some None
  | JArr items => Some <$> mapM json_to_ints items
  | JNum _ => None
  end.

Definition json_decode (s : string) : option json :=
  ts ← lex "" s; parse ts.

(** [json.Unmarshal(data, &v)] for [var v []int]; [None] is an error. *)
Definition json_Unmarshal_ints (data : string) : option (slice Z) :=
  j ← json_decode data; json_to_ints j.

(** [json.Unmarshal(data, &v)] for [var v [][]int]. *)
Definition json_Unmarshal_intss (data : string) : option (slice (slice Z)) :=
  j ← json_decode data; json_to_intss j.

(** *** What the encoder's output is, as tokens and as a value *)

(** Token lists separated by commas. *)
Definition sep_tokens (items : list (list token)) : list token :=
  match items with
  | [] => []
  | first :: rest => first ++ concat ((λ ts, TComma :: ts) <$> rest)
  end.

Definition array_tokens (items : list (list token)) : list token :=
  TLBrack :: sep_tokens items ++ [TRBrack].

Definition ints_tokens (s : slice Z) : list token :=
  match s with
  | None => [TNull]
  | Some l => array_tokens ((λ n, [TNum n]) <$> l)
  end.

Definition intss_tokens (s : slice (slice Z)) : list token :=
  match s with
  | None => [TNull]
  | Some l => array_tokens (ints_tokens <$> l)
  end.

Definition ints_json (s : slice Z) : json :=
  match s with
  | None => JNull
  | Some l => JArr (JNum <$> l)
  end.

Definition intss_json (s : slice (slice Z)) : json :=
  match s with
  | None => JNull
  | Some l => JArr (ints_json <$> l)
  end.

(** Every element fits a Go [int]. *)
Definition ints_ok (s : slice Z) : Prop :=
  Forall (λ n, go_int_ok n = true) (slice_elems s).

Definition intss_ok (s : slice (slice Z)) : Prop :=
  Forall ints_ok (slice_elems s).

(** The items after the first, each behind its comma. *)
Fixpoint comma_tail (items : list string) : string :=
  match items with
  | [] => ""
  | item :: rest => "," +:+ item +:+ comma_tail rest
  end.

(** The string [x] lexes to the tokens [ts] whatever follows it. *)
Definition lexes_open (x : string) (ts : list token) : Prop :=
  ∀ rest, lex "" (x +:+ rest) = (ts ++.) <$> lex "" rest.

(** The string [x] lexes to the tokens [ts] before a comma or a closing
    bracket. *)
Definition lexes_item (x : string) (ts : list token) : Prop :=
  ∀ c rest, c = ","%char ∨ c = "]"%char →
    lex "" (x +:+ String c rest) = (ts ++.) <$> lex "" (String c rest).

(** The tokens [ts] parse to the value [v] wherever a value may start. *)
Definition parses_value (ts : list token) (v : json) : Prop :=
  ∀ stack rest,
    prun (PValue stack) (ts ++ rest) = prun (push v stack) rest ∧
    prun (PFirst stack) (ts ++ rest) = prun (push v stack) rest.

(** ** A sample platform

    One concrete platform, to run the operations on concrete inputs.  The
    remote service and the zip decoder are left as its parameters. *)

Fixpoint last_segment (acc : string) (s : string) : string :=
  match s with
  | EmptyString => acc
  | String c rest =>
      if Ascii.eqb c "/" then last_segment "" rest
      else last_segment (acc +:+ String c EmptyString) rest
  end.

Fixpoint last_ext (acc : string) (s : string) : string :=
  match s with
  | EmptyString => acc
  | String c rest =>
      if Ascii.eqb c "/" then last_ext "" rest
      else if Ascii.eqb c "." then last_ext "." rest
      else if decide (acc = "") then last_ext "" rest
      else last_ext (acc +:+ String c EmptyString) rest
  end.

Fixpoint strip_trailing_slashes (s : string) : string :=
  match s with
  | EmptyString => EmptyString
  | String c rest =>
      let rest := strip_trailing_slashes rest in
      if Ascii.eqb c "/" && bool_decide (rest = "") then EmptyString
      else String c rest
  end.

Definition sample_Join (a b : string) : string :=
  strip_trailing_slashes
    (if decide (a = "") then b
     else if decide (b = "") then a
     else a +:+ "/" +:+ b).

Definition sample_TypeByExtension (ext : string) : string :=
  if decide (ext = ".pdf") then "application/pdf"
  else if decide (ext = ".zip") then "application/zip"
  else "".

Definition sample_DetectContentType (data : list byte) : string :=
  if decide (take 5 data = bytes_of_string "%PDF-") then "application/pdf"
  else "application/octet-stream".

Definition sample_url_Parse (url : string) : option error :=
  if all_chars (λ c, (32 <? N_of_ascii c)%N && (N_of_ascii c <? 127)%N) url
  then None
  else Some (ExternalErr "net/url: invalid character in URL").

(** A string between double quotes (byte 34); nothing is escaped. *)
Definition json_quote (s : string) : string :=
  String "034" (s +:+ String "034" EmptyString).

Definition sample_Marshal_map (m : gmap string string) : Result string :=
  Ok ("{" +:+
      String.concat ","
        ((λ kv, json_quote kv.1 +:+ ":" +:+ json_quote kv.2)
           <$> map_to_list m) +:+
      "}").

Definition samplePlatform (service : HTTPRequest → Result HTTPResponse)
    (unzip : list byte → Result (list ZipFile)) : Platform :=
  {| filepath_Base := last_segment "";
     filepath_Ext := last_ext "";
     filepath_Join := sample_Join;
     mime_TypeByExtension := sample_TypeByExtension;
     http_DetectContentType := sample_DetectContentType;
     url_Parse := sample_url_Parse;
     multipart_boundary := "28a1f0c3b7e94d55";
     roundTrip := service;
     zip_NewReader := unzip;
     json_Marshal_map := sample_Marshal_map;
     rangeMap := λ A m, map_to_list m;
     rangeMap_perm := λ A m, reflexivity (map_to_list m) |}.


(** ** Sample inputs *)

(** A body that arrives in chunks and ends with EOF. *)
Fixpoint stream_of_chunks (chunks : list (list byte)) : Stream :=
  match chunks with
  | [] => SEOF
  | data :: rest => SChunk data (stream_of_chunks rest)
  end.

Definition response_404 : HTTPResponse :=
  {| RespStatusCode := 404;
     RespStatus := "404 Not Found";
     RespBody := SChunk (bytes_of_string "no such page") SEOF |}.


Definition pdf_bytes : list byte := bytes_of_string "%PDF-1.7 sample".

Definition service_ok (req : HTTPRequest) : Result HTTPResponse :=
  Ok {| RespStatusCode := 200;
        RespStatus := "200 OK";
        RespBody := stream_of_chunks [pdf_bytes] |}.

Definition service_created (req : HTTPRequest) : Result HTTPResponse :=
  Ok {| RespStatusCode := 201;
        RespStatus := "201 Created";
        RespBody := stream_of_chunks [bytes_of_string "created"] |}.

Definition not_a_zip (data : list byte) : Result (list ZipFile) :=
  Err (ExternalErr "zip: not a valid zip file").

Definition platform_ok : Platform := samplePlatform service_ok not_a_zip.
Definition platform_created : Platform :=
  samplePlatform service_created not_a_zip.

Definition sample_client : PDFClient :=
  NewPDFClient "api-key"
    [SetBaseURL "http://127.0.0.1:5011"; SetAPIVersion "v1"].

(** A world with one PDF file and one directory, and nothing sent yet. *)
Definition sample_world : World :=
  {| fs := {[ "input/sample.pdf" := NFile 420 pdf_bytes;
              "output" := NDir 493 ]};
     sent := [] |}.

(** The request [Split] builds for [input/sample.pdf] and [[3, 7]]. *)
Definition sample_split_request (P : Platform) : HTTPRequest :=
  multipartRequest (H := P) sample_client
    (BaseURL sample_client +:+ "/pdf/split") "file" (Some pdf_bytes)
    "sample.pdf" {[ "splits" := "[3,7]" ]}.

Definition response_201 : HTTPResponse :=
  {| RespStatusCode := 201;
     RespStatus := "201 Created";
     RespBody := stream_of_chunks [bytes_of_string "created"] |}.

(** An archive with a single entry, the directory [docs/]. *)
Definition docs_entry : ZipFile :=
  {| zf_Name := "docs/"; zf_Mode := fs_ModeDir + 493; zf_Open := Ok SEOF |}.

Definition docs_zip : list byte := bytes_of_string "PK: docs/".

Definition unzip_docs (data : list byte) : Result (list ZipFile) :=
  if decide (data = docs_zip) then Ok [docs_entry]
  else Err (ExternalErr "zip: not a valid zip file").

Definition platform_docs : Platform := samplePlatform service_ok unzip_docs.

(** A world where [out/docs] is already there, as a regular file. *)
Definition blocked_world : World :=
  {| fs := {[ "out" := NDir 493;
              "out/docs" := NFile 420 (bytes_of_string "notes") ]};
     sent := [] |}.

(** ** The earlier client

    The package as it was before the option functions: the constructor takes
    the base URL and the version, and a failed validation is a plain
    [errors.New].  The example program [main.go] is written against it. *)

Module Legacy.

Record PDFClient := mkPDFClient {
  APIVersion : string;
  BaseURL : string;
  APIKey : string;
  Headers : gmap string (list string);
}.

Definition NewPDFClient (apiKey baseURL apiVersion : string) : PDFClient :=
  {| APIVersion := apiVersion;
     BaseURL := baseURL +:+ "/" +:+ apiVersion;
     APIKey := apiKey;
     Headers := {[ "Authorization" := [apiKey] ]} |}.

(** [errors.New(text)] has the dynamic type that [fmt.Errorf] without [%w]
    returns, so it is an [Errorf]. *)
Definition ValidateToken `{Platform} (client : PDFClient)
  : M (bool * option error) :=
  let url := BaseURL client +:+ "/token" in
  match http_NewRequest "GET" url [] with
  | Err err => mret (false, Some err)
  | Ok req =>
      let req := set_Header (Headers client) req in
      r ← http_Do req;
      match r with
      | Err err => mret (false, Some err)
      | Ok resp =>
          if decide (RespStatusCode resp ≠ http_StatusOK)
          then mret (false, Some (Errorf "failed to validate token"))
          else mret (true, None)
      end
  end.

End Legacy.

(** ** main.go *)

(** [err.Error()] *)
Definition error_Error (e : error) : string :=
  match e with
  | PDFErr e => PDFError_Error e
  | Errorf msg => msg
  | PathError op path msg => op +:+ " " +:+ path +:+ ": " +:+ msg
  | ExternalErr msg => msg
  end.

(** [fmt.Println] of a [bool] *)
Definition format_bool (b : bool) : string := if b then "true" else "false".

(** The program, as the lines it prints. *)
Definition main `{Platform} : M (list string) :=
  let client :=
    Legacy.NewPDFClient "f447756e0bc543e1aac304d0fcc2a800"
      "https://data.fastpdfservice.com" "v1" in
  '(isValid, err) ← Legacy.ValidateToken client;
  match err with
  | Some err => mret ["Error: " +:+ error_Error err]
  | None => mret ["Token is valid: " +:+ format_bool isValid]
  end.

(** ** Notions used by the further properties *)

(** [writer.FormDataContentType()] *)
Definition multipart_content_type `{Platform} : string :=
  "multipart/form-data; boundary=" +:+ multipart_boundary.


(** The entry opens and its content can be read to the end. *)
Definition entry_complete (file : ZipFile) : bool :=
  match zf_Open file with
  | Ok rc => match (io_ReadAll rc).2 with
             | None => true
             | Some _ => false
             end
  | Err _ => false
  end.


(** The worlds after each of the operations that talk to the service. *)
Definition service_worlds `{Platform} (c : PDFClient) (file : GoValue)
    (splits : slice Z) (ranges : slice (slice Z))
    (metadata : gmap string string) (w : World) : list World :=
  [(ValidateToken c w).2; (Split c file splits w).2;
   (SplitZip c file ranges w).2; (EditMetadata c file metadata w).2].

(** The three uploads. *)
Definition uploads `{Platform} (c : PDFClient) (file : GoValue)
    (splits : slice Z) (ranges : slice (slice Z))
    (metadata : gmap string string) : list (M (slice byte * option error)) :=
  [Split c file splits; SplitZip c file ranges; EditMetadata c file metadata].

(** *** More sample inputs *)

Definition service_down (req : HTTPRequest) : Result HTTPResponse :=
  Err (ExternalErr "dial tcp 127.0.0.1:5011: connect: connection refused").

Definition platform_down : Platform := samplePlatform service_down not_a_zip.

(** A client whose base URL has a space in the host name. *)
Definition misconfigured_client : PDFClient :=
  NewPDFClient "api-key" [SetBaseURL "http://pdf service"].

(** The request of the example program. *)
Definition main_request : HTTPRequest :=
  {| Method := "GET";
     URL := ("https://data.fastpdfservice.com" +:+ "/" +:+ "v1") +:+ "/token";
     Header := {[ "Authorization" := ["f447756e0bc543e1aac304d0fcc2a800"] ]};
     Body := [] |}.

(** An archive with the directory [docs/] and a file in it that arrives in
    two chunks. *)
Definition notes_entry : ZipFile :=
  {| zf_Name := "docs/notes.txt";
     zf_Mode := 420;
     zf_Open := Ok (stream_of_chunks [bytes_of_string "first ";
                                      bytes_of_string "second"]) |}.

(** An entry whose content is cut short by a checksum error. *)
Definition broken_entry : ZipFile :=
  {| zf_Name := "docs/broken.bin";
     zf_Mode := 420;
     zf_Open := Ok (SChunk (bytes_of_string "par")
                      (SErr (ExternalErr "zip: checksum error"))) |}.

Definition notes_zip : list byte := bytes_of_string "PK: docs/ notes broken".

Definition unzip_notes (data : list byte) : Result (list ZipFile) :=
  if decide (data = notes_zip) then Ok [docs_entry; notes_entry; broken_entry;
                                        notes_entry]
  else Err (ExternalErr "zip: not a valid zip file").

Definition platform_notes : Platform := samplePlatform service_ok unzip_notes.

(** A world with only the output directory. *)
Definition empty_out_world : World :=
  {| fs := {[ "out" := NDir 493 ]}; sent := [] |}.

Definition good_zip : list byte := bytes_of_string "PK: docs/ notes".

Definition unzip_good (data : list byte) : Result (list ZipFile) :=
  if decide (data = good_zip) then Ok [docs_entry; notes_entry]
  else Err (ExternalErr "zip: not a valid zip file").

Definition platform_good : Platform := samplePlatform service_ok unzip_good.

(** A service that answers 200 and whose body breaks off while it is read. *)
Definition response_200_cut : HTTPResponse :=
  {| RespStatusCode := 200;
     RespStatus := "200 OK";
     RespBody := SChunk (bytes_of_string "%PDF-par")
                   (SErr (ExternalErr "unexpected EOF")) |}.

Definition service_cut (req : HTTPRequest) : Result HTTPResponse :=
  Ok response_200_cut.

Definition platform_cut : Platform := samplePlatform service_cut not_a_zip.

(** The request [EditMetadata] builds for [input/sample.pdf] and an empty
    mapping. *)
Definition sample_metadata_request (P : Platform) : HTTPRequest :=
  multipartRequest (H := P) sample_client
    (BaseURL sample_client +:+ "/pdf/metadata") "file" (Some pdf_bytes)
    "sample.pdf" {[ "metadata" := "{}" ]}.




(** * Properties *)

(** ** Construction of the client *)

Lemma applyOptions_setters_keep (options : list ClientOption) (c : PDFClient) :
  Forall is_setter options →
  APIKey (applyOptions options c) = APIKey c ∧
  Headers (applyOptions options c) = Headers c.
Proof.
  intros Hall. revert c.
  induction Hall as [|o os Ho _ IH]; intros c; [done|].
  change (applyOptions (o :: os) c) with (applyOptions os (o c)).
  destruct (IH (o c)) as [-> ->].
  by destruct Ho.
Qed.

(** A client built with the package's own options carries its key in the
    header [Authorization] and nothing else. *)
Lemma NewPDFClient_setters (apiKey : string) (options : list ClientOption) :
  Forall is_setter options →
  APIKey (NewPDFClient apiKey options) = apiKey ∧
  Headers (NewPDFClient apiKey options) = {[ "Authorization" := [apiKey] ]}.
Proof.
  intros Hall. unfold NewPDFClient. cbn.
  by destruct (applyOptions_setters_keep options (defaultClient apiKey) Hall)
    as [-> ->].
Qed.

(** C2: for every API key, base URL and version, the client built with them
    (in either order of the two options) has base URL [base/version], API
    version [version], and a header set with exactly one entry,
    [Authorization], whose only value is the key.  For any options at all,
    the version segment is appended once, to the base URL left by the last
    option. *)
Theorem NewPDFClient_base_url_and_headers
    (apiKey base version : string) (options : list ClientOption) :
  Forall (λ c,
      BaseURL c = base +:+ "/" +:+ version ∧
      APIVersion c = version ∧
      APIKey c = apiKey ∧
      Headers c = {[ "Authorization" := [apiKey] ]} ∧
      size (Headers c) = 1%nat ∧
      Headers c !! "Authorization" = Some [apiKey])
    [NewPDFClient apiKey [SetBaseURL base; SetAPIVersion version];
     NewPDFClient apiKey [SetAPIVersion version; SetBaseURL base]] ∧
  BaseURL (NewPDFClient apiKey []) =
    "https://data.fastpdfservice.com" +:+ "/" +:+ "v1" ∧
  BaseURL (NewPDFClient apiKey options) =
    BaseURL (applyOptions options (defaultClient apiKey)) +:+ "/" +:+
    APIVersion (applyOptions options (defaultClient apiKey)).
Proof.
  split; [|done].
  repeat constructor; cbn.
  all: try apply map_size_singleton; apply lookup_singleton_eq.
Qed.

(** ** The error decoder *)

(** C4: the decoder is total and its result has the status code of the
    response, the fixed message, and as raw body either the whole body or,
    when reading it fails, the sentinel text; the read error itself is
    dropped. *)
Theorem NewPDFError_always_usable (resp : HTTPResponse) :
  StatusCode (NewPDFError resp) = RespStatusCode resp ∧
  Message (NewPDFError resp) = "Server returned an HTTP error" ∧
  Response (NewPDFError resp) =
    match io_ReadAll (RespBody resp) with
    | (body, None) => string_of_bytes body
    | (_, Some _) => "failed to read response body"
    end.
Proof.
  unfold NewPDFError.
  destruct (io_ReadAll (RespBody resp)) as [body [err|]]; done.
Qed.

Lemma io_ReadAll_chunks (chunks : list (list byte)) :
  io_ReadAll (stream_of_chunks chunks) = (concat chunks, None).
Proof.
  induction chunks as [|data rest IH]; [done|].
  cbn. by rewrite IH.
Qed.

(** C5: on the response [404 Not Found] the decoded error has an empty
    [Status]: the status text of the response is not carried over.  The same
    holds for every response. *)
Theorem NewPDFError_status_text_lost :
  RespStatus response_404 = "404 Not Found" ∧
  StatusCode (NewPDFError response_404) = 404 ∧
  Response (NewPDFError response_404) = "no such page" ∧
  Status (NewPDFError response_404) = "" ∧
  ∀ resp, Status (NewPDFError resp) = "".
Proof.
  repeat split.
  intros resp. unfold NewPDFError.
  by destruct (io_ReadAll (RespBody resp)) as [body [err|]].
Qed.

(** ** The persistence helper *)

(** C8: with an empty path [Save] hands the content back and leaves the
    world as it is.  With a path it makes the one call of [os.WriteFile],
    returns no content and that call's error as it is; when there is no
    error the file at the path holds exactly the content, and in every case
    no other path changes and nothing is sent. *)
Theorem Save_writes_or_passes_through
    (c : PDFClient) (content : slice byte) (filePath : string) (w : World) :
  match decide (filePath = "") with
  | left _ => Save c content filePath w = ((content, None), w)
  | right _ =>
      let '(err, w') := os_WriteFile filePath (slice_elems content) 420 w in
      Save c content filePath w = ((None, err), w') ∧
      sent w' = sent w ∧
      (∀ p, p ≠ filePath → fs w' !! p = fs w !! p) ∧
      match err with
      | None =>
          ∃ mode, fs w' !! filePath = Some (NFile mode (slice_elems content))
      | Some _ => w' = w
      end
  end.
Proof.
  unfold Save. destruct (decide (filePath = "")) as [->|Hne].
  - done.
  - rewrite decide_True by done.
    unfold mbind, M_bind, os_WriteFile.
    destruct (fs w !! filePath) as [[mode old|mode]|] eqn:Hlook; cbn.
    + repeat split; [|eexists; apply lookup_insert_eq].
      intros p Hp. by rewrite lookup_insert_ne.
    + by repeat split.
    + repeat split; [|eexists; apply lookup_insert_eq].
      intros p Hp. by rewrite lookup_insert_ne.
Qed.

Section FileReader.
Context `{Platform}.

(** ** The file reader *)

(** C9: a [file] argument that is neither a string nor a byte slice makes
    [readFile] fail with an error that names the type of the argument, and
    [Split], [SplitZip] and [EditMetadata] return that error and leave the
    world, with its log of requests, unchanged. *)
Theorem unsupported_file_fails_before_any_request
    (c : PDFClient) (file : GoValue) (splits : slice Z)
    (ranges : slice (slice Z)) (metadata : gmap string string) (w : World) :
  (∀ s, file ≠ VString s) →
  (∀ b, file ≠ VBytes b) →
  let err := Errorf ("unsupported file type: " +:+ typeName file) in
  readFile file w = (("", None, "", Some err), w) ∧
  Split c file splits w = ((None, Some err), w) ∧
  SplitZip c file ranges w = ((None, Some err), w) ∧
  EditMetadata c file metadata w = ((None, Some err), w).
Proof.
  intros Hs Hb.
  destruct file as [s|b| | | |]; [by destruct (Hs s)|by destruct (Hb b)|..];
    done.
Qed.

(** C10: when [readFile] returns no error, the content type it returns is
    not empty: it is what the extension or the leading bytes gave, or
    [application/octet-stream] when they gave nothing. *)
Theorem readFile_content_type_never_empty
    (file : GoValue) (w w' : World) (filename : string)
    (fileContent : slice byte) (contentType : string) :
  readFile file w = ((filename, fileContent, contentType, None), w') →
  contentType ≠ "" ∧
  contentType = if decide (detected_type file = "")
                then "application/octet-stream"
                else detected_type file.
Proof.
  intros Hread.
  cut (contentType = if decide (detected_type file = "")
                     then "application/octet-stream"
                     else detected_type file).
  { intros ->. split; [|done]. by destruct (decide (detected_type file = "")). }
  destruct file as [f|b| | | |]; cbn in Hread; try discriminate.
  - unfold mbind, M_bind, os_ReadFile in Hread.
    destruct (fs w !! f) as [[mode data|mode]|]; cbn in Hread;
      try discriminate.
    by injection Hread as _ _ <- _.
  - by injection Hread as _ _ <- _.
Qed.

End FileReader.

Lemma unsupported_file_witness :
  Split (H := platform_ok) sample_client (VInt 42) (Some [3; 7]) sample_world =
    ((None, Some (Errorf "unsupported file type: int")), sample_world).
Proof.
  apply (unsupported_file_fails_before_any_request (H := platform_ok)
           sample_client (VInt 42) (Some [3; 7]) None ∅ sample_world);
    discriminate.
Defined.

Lemma readFile_content_type_witness :
  readFile (H := platform_ok) (VBytes (Some [x00; x01])) sample_world =
    (("", Some [x00; x01], "application/octet-stream", None), sample_world) ∧
  "application/octet-stream" ≠ "".
Proof.
  split; [reflexivity|].
  apply (readFile_content_type_never_empty (H := platform_ok)
           (VBytes (Some [x00; x01])) sample_world sample_world ""
           (Some [x00; x01]) "application/octet-stream").
  reflexivity.
Defined.

(** ** Requests and responses *)

Section Requests.
Context `{Platform}.

Lemma writeFields_parts (writer : Writer) (fields : list (string * string)) :
  writeFields writer fields =
    Ok {| boundary := boundary writer;
          parts := parts writer ++ (field_part <$> fields) |}.
Proof.
  revert writer. induction fields as [|[key value] rest IH]; intros writer.
  - cbn. rewrite app_nil_r. by destruct writer.
  - cbn. rewrite IH. cbn. by rewrite <- app_assoc.
Qed.

(** [makeMultipartPostRequest] either stops at a URL that does not parse, or
    sends exactly the request [multipartRequest] and decides on the answer. *)
Lemma makeMultipartPostRequest_run (c : PDFClient) (url fileField : string)
    (fileData : slice byte) (filename : string)
    (extraFields : gmap string string) (w : World) :
  makeMultipartPostRequest c url fileField fileData filename extraFields w =
    match url_Parse url with
    | Some err => ((None, Some err), w)
    | None =>
        let req := multipartRequest c url fileField fileData filename
                     extraFields in
        (upload_result (roundTrip req), log_request req w)
    end.
Proof.
  unfold makeMultipartPostRequest. cbn.
  rewrite writeFields_parts. cbn.
  unfold http_NewRequest. destruct (url_Parse url) as [err|]; [done|].
  cbn. unfold mbind, M_bind, http_Do, multipartRequest, log_request. cbn.
  destruct (roundTrip _) as [resp|err]; cbn; [|done].
  destruct (decide (RespStatusCode resp ≠ http_StatusOK)); [done|].
  by destruct (io_ReadAll (RespBody resp)).
Qed.

Lemma readFile_world (file : GoValue) (w : World) : (readFile file w).2 = w.
Proof.
  destruct file as [f|b| | | |]; try done.
  cbn. unfold mbind, M_bind, os_ReadFile.
  by destruct (fs w !! f) as [[mode data|mode]|].
Qed.

Lemma ValidateToken_run (c : PDFClient) (w : World) :
  ValidateToken c w =
    match url_Parse (BaseURL c +:+ "/token") with
    | Some err => ((false, Some err), w)
    | None => (token_result (roundTrip (tokenRequest c)),
               log_request (tokenRequest c) w)
    end.
Proof.
  unfold ValidateToken, http_NewRequest.
  destruct (url_Parse _) as [err|]; [done|].
  cbn. unfold mbind, M_bind, http_Do, tokenRequest, log_request. cbn.
  destruct (roundTrip _) as [resp|err]; cbn; [|done].
  by destruct (decide (RespStatusCode resp ≠ http_StatusOK)).
Qed.

(** An upload starts with [readFile], which leaves the world as it is. *)
Ltac after_readFile file w :=
  unfold mbind, M_bind;
  let Hw := fresh "Hw" in
  pose proof (readFile_world file w) as Hw;
  destruct (readFile file w) as [[[[?filename ?fileContent] ?ct] [?err|]] ?w'];
  cbn in *; subst.

Lemma Split_run (c : PDFClient) (file : GoValue) (splits : slice Z)
    (w : World) :
  Split c file splits w =
    match (readFile file w).1 with
    | (_, _, _, Some err) => ((None, Some err), w)
    | (filename, fileContent, _, None) =>
        makeMultipartPostRequest c (BaseURL c +:+ "/pdf/split") "file"
          fileContent filename {[ "splits" := json_encode_ints splits ]} w
    end.
Proof.
  unfold Split. by after_readFile file w.
Qed.

Lemma SplitZip_run (c : PDFClient) (file : GoValue) (ranges : slice (slice Z))
    (w : World) :
  SplitZip c file ranges w =
    match (readFile file w).1 with
    | (_, _, _, Some err) => ((None, Some err), w)
    | (filename, fileContent, _, None) =>
        makeMultipartPostRequest c (BaseURL c +:+ "/pdf/split-zip") "file"
          fileContent filename {[ "splits" := json_encode_intss ranges ]} w
    end.
Proof.
  unfold SplitZip. by after_readFile file w.
Qed.

Lemma EditMetadata_run (c : PDFClient) (file : GoValue)
    (metadata : gmap string string) (w : World) :
  EditMetadata c file metadata w =
    match (readFile file w).1 with
    | (_, _, _, Some err) => ((None, Some err), w)
    | (filename, fileContent, _, None) =>
        match json_Marshal_map metadata with
        | Err err => ((None, Some err), w)
        | Ok metadataJSON =>
            makeMultipartPostRequest c (BaseURL c +:+ "/pdf/metadata") "file"
              fileContent filename {[ "metadata" := metadataJSON ]} w
        end
    end.
Proof.
  unfold EditMetadata. after_readFile file w; [done|].
  by destruct (json_Marshal_map metadata).
Qed.

Lemma makeMultipartPostRequest_outcome (c : PDFClient)
    (url : string) (fileData : slice byte) (filename : string)
    (extraFields : gmap string string) (w : World) :
  upload_outcome c
    (makeMultipartPostRequest c url "file" fileData filename extraFields) w.
Proof.
  unfold upload_outcome. rewrite makeMultipartPostRequest_run.
  destruct (url_Parse url) as [err|]; [left|right]; eauto 10.
Qed.

Lemma uploads_outcome (c : PDFClient) (file : GoValue) (splits : slice Z)
    (ranges : slice (slice Z)) (metadata : gmap string string) (w : World) :
  Forall (λ op, upload_outcome c op w)
    [Split c file splits; SplitZip c file ranges;
     EditMetadata c file metadata].
Proof.
  apply Forall_cons_2; [|apply Forall_cons_2; [|apply Forall_cons_2;
    [|apply Forall_nil_2]]]; unfold upload_outcome.
  - rewrite Split_run.
    destruct (readFile file w).1 as [[[filename fileContent] ct] [err|]];
      [left; eauto|apply makeMultipartPostRequest_outcome].
  - rewrite SplitZip_run.
    destruct (readFile file w).1 as [[[filename fileContent] ct] [err|]];
      [left; eauto|apply makeMultipartPostRequest_outcome].
  - rewrite EditMetadata_run.
    destruct (readFile file w).1 as [[[filename fileContent] ct] [err|]];
      [left; eauto|].
    destruct (json_Marshal_map metadata);
      [apply makeMultipartPostRequest_outcome|left; eauto].
Qed.

Lemma sent_not_grown (w : World) (req : HTTPRequest) :
  sent w ≠ sent w ++ [req].
Proof.
  intros Heq. apply (f_equal length) in Heq.
  rewrite length_app in Heq. cbn in Heq. lia.
Qed.

Lemma upload_outcome_of_response (c : PDFClient)
    (op : M (slice byte * option error))
    (w : World) (req : HTTPRequest) (resp : HTTPResponse) :
  upload_outcome c op w →
  roundTrip req = Ok resp →
  sent (op w).2 = sent w ++ [req] →
  (op w).1 = upload_result (Ok resp).
Proof.
  intros [[err Hop]|(url & fileData & filename & extraFields & Hop)]
    Hresp Hsent; cbn zeta in Hop; rewrite Hop in *; cbn in Hsent.
  - by destruct (sent_not_grown w req).
  - apply app_inv_head in Hsent. injection Hsent as ->.
    cbn. by rewrite Hresp.
Qed.

Lemma upload_result_status (resp : HTTPResponse) :
  upload_result (Ok resp) =
    if decide (RespStatusCode resp = 200)
    then (Some (io_ReadAll (RespBody resp)).1, (io_ReadAll (RespBody resp)).2)
    else (None, Some (PDFErr (NewPDFError resp))).
Proof.
  cbn. unfold http_StatusOK.
  destruct (decide (RespStatusCode resp = 200)) as [Heq|Hne].
  - by rewrite decide_False by (by intros []).
  - by rewrite decide_True.
Qed.

Lemma token_result_status (resp : HTTPResponse) :
  token_result (Ok resp) =
    if decide (RespStatusCode resp = 200) then (true, None)
    else (false, Some (PDFErr (NewPDFError resp))).
Proof.
  cbn. unfold http_StatusOK.
  destruct (decide (RespStatusCode resp = 200)) as [Heq|Hne].
  - by rewrite decide_False by (by intros []).
  - by rewrite decide_True.
Qed.

(** C1, as amended: take an upload whose file was read (and, for
    [EditMetadata], whose metadata was encoded), or a token validation.  If
    the URL of its request parses and the service answers that request with
    [resp], the operation sends exactly that request and its result is
    decided by the status code of [resp] alone.  On 200 an upload returns
    what [io.ReadAll] gives for the body: the whole body and no error when
    the body ends with EOF, the bytes read so far and the read error when
    reading fails; token validation returns [(true, nil)].  On every other
    status, other 2xx codes included, the result is no content (or [false])
    and the error decoded from [resp], which has the status code of
    [resp]. *)
Theorem status_decides_every_result
    (c : PDFClient) (file : GoValue) (splits : slice Z)
    (ranges : slice (slice Z)) (metadata : gmap string string)
    (w : World) (filename : string) (fileContent : slice byte)
    (contentType metadataJSON : string) (resp : HTTPResponse) :
  (readFile file w).1 = (filename, fileContent, contentType, None) →
  json_Marshal_map metadata = Ok metadataJSON →
  Forall2 (λ (op : M (slice byte * option error)) req,
      url_Parse (URL req) = None →
      roundTrip req = Ok resp →
      op w =
        (if decide (RespStatusCode resp = 200)
         then (Some (io_ReadAll (RespBody resp)).1,
               (io_ReadAll (RespBody resp)).2)
         else (None, Some (PDFErr (NewPDFError resp))),
         log_request req w))
    (uploads c file splits ranges metadata)
    [multipartRequest c (BaseURL c +:+ "/pdf/split") "file" fileContent
       filename {[ "splits" := json_encode_ints splits ]};
     multipartRequest c (BaseURL c +:+ "/pdf/split-zip") "file" fileContent
       filename {[ "splits" := json_encode_intss ranges ]};
     multipartRequest c (BaseURL c +:+ "/pdf/metadata") "file" fileContent
       filename {[ "metadata" := metadataJSON ]}] ∧
  (url_Parse (URL (tokenRequest c)) = None →
   roundTrip (tokenRequest c) = Ok resp →
   ValidateToken c w =
     (if decide (RespStatusCode resp = 200) then (true, None)
      else (false, Some (PDFErr (NewPDFError resp))),
      log_request (tokenRequest c) w)) ∧
  StatusCode (NewPDFError resp) = RespStatusCode resp ∧
  (∀ chunks, RespBody resp = stream_of_chunks chunks →
     io_ReadAll (RespBody resp) = (concat chunks, None)).
Proof.
  intros Hread Hjs. split; [|split; [|split]].
  - unfold uploads.
    repeat apply Forall2_cons_2; [| | |apply Forall2_nil_2];
      cbn [URL multipartRequest]; intros Hurl Hresp.
    + rewrite Split_run, Hread, makeMultipartPostRequest_run, Hurl.
      cbn zeta. by rewrite Hresp, upload_result_status.
    + rewrite SplitZip_run, Hread, makeMultipartPostRequest_run, Hurl.
      cbn zeta. by rewrite Hresp, upload_result_status.
    + rewrite EditMetadata_run, Hread, Hjs, makeMultipartPostRequest_run,
        Hurl.
      cbn zeta. by rewrite Hresp, upload_result_status.
  - cbn [URL tokenRequest]. intros Hurl Hresp.
    by rewrite ValidateToken_run, Hurl, Hresp, token_result_status.
  - unfold NewPDFError. by destruct (io_ReadAll (RespBody resp)) as [? [?|]].
  - intros chunks ->. apply io_ReadAll_chunks.
Qed.

End Requests.

Lemma status_decides_witness :
  Split (H := platform_created) sample_client (VString "input/sample.pdf")
    (Some [3; 7]) sample_world =
  ((None, Some (PDFErr (NewPDFError response_201))),
   log_request (sample_split_request platform_created) sample_world) ∧
  EditMetadata (H := platform_ok) sample_client (VString "input/sample.pdf")
    ∅ sample_world =
  ((Some pdf_bytes, None),
   log_request (sample_metadata_request platform_ok) sample_world) ∧
  ValidateToken (H := platform_created) sample_client sample_world =
  ((false, Some (PDFErr (NewPDFError response_201))),
   log_request (tokenRequest sample_client) sample_world).
Proof.
  assert (∀ P : Platform,
            P = platform_created ∨ P = platform_ok →
            (readFile (H := P) (VString "input/sample.pdf") sample_world).1 =
            ("sample.pdf", Some pdf_bytes, "application/pdf", None))
    as Hread by (intros P [-> | ->]; vm_compute; reflexivity).
  split; [|split].
  - destruct (status_decides_every_result (H := platform_created)
                sample_client (VString "input/sample.pdf") (Some [3; 7]) None
                ∅ sample_world "sample.pdf" (Some pdf_bytes)
                "application/pdf" "{}" response_201)
      as [Huploads _]; [by apply Hread; left|by vm_compute|].
    apply Forall2_cons_1 in Huploads as [Hsplit _].
    apply Hsplit; vm_compute; reflexivity.
  - destruct (status_decides_every_result (H := platform_ok)
                sample_client (VString "input/sample.pdf") (Some [3; 7]) None
                ∅ sample_world "sample.pdf" (Some pdf_bytes)
                "application/pdf" "{}"
                {| RespStatusCode := 200; RespStatus := "200 OK";
                   RespBody := stream_of_chunks [pdf_bytes] |})
      as [Huploads _]; [by apply Hread; right|by vm_compute|].
    apply Forall2_cons_1 in Huploads as [_ Huploads].
    apply Forall2_cons_1 in Huploads as [_ Huploads].
    apply Forall2_cons_1 in Huploads as [Hmeta _].
    rewrite Hmeta; vm_compute; reflexivity.
  - destruct (status_decides_every_result (H := platform_created)
                sample_client (VString "input/sample.pdf") (Some [3; 7]) None
                ∅ sample_world "sample.pdf" (Some pdf_bytes)
                "application/pdf" "{}" response_201)
      as (_ & Htoken & _); [by apply Hread; left|by vm_compute|].
    apply Htoken; vm_compute; reflexivity.
Defined.

(** C1, as it was stated, fails here: the service answers the request of
    [Split] with status 200, the body breaks off while it is read, and
    [Split] returns the part that was read together with the read error,
    not the full body. *)
Lemma status_200_read_failure :
  roundTrip (Platform := platform_cut) (sample_split_request platform_cut) =
    Ok response_200_cut ∧
  RespStatusCode response_200_cut = 200 ∧
  Split (H := platform_cut) sample_client (VString "input/sample.pdf")
    (Some [3; 7]) sample_world =
  ((Some (bytes_of_string "%PDF-par"), Some (ExternalErr "unexpected EOF")),
   log_request (sample_split_request platform_cut) sample_world) ∧
  (Split (H := platform_cut) sample_client (VString "input/sample.pdf")
     (Some [3; 7]) sample_world).1.2 ≠ None.
Proof.
  repeat split; try (vm_compute; reflexivity).
  vm_compute. discriminate.
Qed.

(** ** Extraction *)

Section Extraction.
Context `{Platform}.

Lemma Extract_bad_archive (c : PDFClient) (zipBytes : slice byte)
    (outputPath : string) (w : World) (err : error) :
  zip_NewReader (slice_elems zipBytes) = Err err →
  Extract c zipBytes outputPath w = (Some err, w).
Proof. unfold Extract. by intros ->. Qed.

(** A file entry whose target cannot be created stops the extraction. *)
Lemma extractFiles_create_failure (outputPath : string) (file : ZipFile)
    (rest : list ZipFile) (w w' : World) (err : error) :
  FileMode_IsDir (zf_Mode file) = false →
  os_OpenFile_create_trunc (filepath_Join outputPath (zf_Name file))
    (zf_Mode file) w = (Err err, w') →
  extractFiles outputPath (file :: rest) w = (Some err, w').
Proof.
  intros Hdir Hopen. cbn. rewrite Hdir. unfold mbind, M_bind.
  by rewrite Hopen.
Qed.

(** A copy that fails stops the extraction; what was written stays. *)
Lemma extractFiles_copy_failure (outputPath : string) (file : ZipFile)
    (rest : list ZipFile) (w w1 w2 : World) (f : string) (rc : Stream)
    (err : error) :
  FileMode_IsDir (zf_Mode file) = false →
  os_OpenFile_create_trunc (filepath_Join outputPath (zf_Name file))
    (zf_Mode file) w = (Ok f, w1) →
  zf_Open file = Ok rc →
  io_Copy f rc w1 = (Some err, w2) →
  extractFiles outputPath (file :: rest) w = (Some err, w2).
Proof.
  intros Hdir Hopen Hrc Hcopy. cbn. rewrite Hdir. unfold mbind, M_bind.
  by rewrite Hopen, Hrc, Hcopy.
Qed.

(** A directory entry never stops the extraction: whatever [os.MkdirAll]
    returns, the loop goes on with the next entry. *)
Lemma extractFiles_directory (outputPath : string) (file : ZipFile)
    (rest : list ZipFile) (w : World) :
  FileMode_IsDir (zf_Mode file) = true →
  extractFiles outputPath (file :: rest) w =
    extractFiles outputPath rest
      (os_MkdirAll (filepath_Join outputPath (zf_Name file)) os_ModePerm w).2.
Proof.
  intros Hdir. cbn. rewrite Hdir. unfold mbind, M_bind.
  by destruct (os_MkdirAll _ _ w).
Qed.

(** A file entry that cannot be opened in the archive stops the
    extraction; the target has been created by then and stays. *)
Lemma extractFiles_open_failure (outputPath : string) (file : ZipFile)
    (rest : list ZipFile) (w w1 : World) (f : string) (err : error) :
  FileMode_IsDir (zf_Mode file) = false →
  os_OpenFile_create_trunc (filepath_Join outputPath (zf_Name file))
    (zf_Mode file) w = (Ok f, w1) →
  zf_Open file = Err err →
  extractFiles outputPath (file :: rest) w = (Some err, w1).
Proof.
  intros Hdir Hopen Hrc. cbn. rewrite Hdir. unfold mbind, M_bind.
  by rewrite Hopen, Hrc.
Qed.

(** The entries after the first error are never looked at, and the world
    is the one the failing entry left: nothing is rolled back. *)
Lemma extractFiles_app (outputPath : string) (done rest : list ZipFile)
    (w : World) :
  extractFiles outputPath (done ++ rest) w =
    match extractFiles outputPath done w with
    | (None, w') => extractFiles outputPath rest w'
    | (Some err, w') => (Some err, w')
    end.
Proof.
  revert w. induction done as [|file done IH]; intros w; [done|].
  cbn. destruct (FileMode_IsDir (zf_Mode file)); unfold mbind, M_bind.
  - destruct (os_MkdirAll _ _ w) as [_err w1]. apply IH.
  - destruct (os_OpenFile_create_trunc _ _ w) as [[f|err] w1]; [|done].
    destruct (zf_Open file) as [rc|err]; [|done].
    destruct (io_Copy f rc w1) as [[err|] w2]; [done|]. apply IH.
Qed.

Lemma io_Copy_sent (f : string) (rc : Stream) (w : World) :
  sent (io_Copy f rc w).2 = sent w.
Proof.
  revert w. induction rc as [|data rest IH|err]; intros w; [done| |done].
  cbn. unfold mbind, M_bind. cbn. by rewrite IH.
Qed.

Lemma extractFiles_sent (outputPath : string) (files : list ZipFile)
    (w : World) :
  sent (extractFiles outputPath files w).2 = sent w.
Proof.
  revert w. induction files as [|file files IH]; intros w; [done|].
  cbn. destruct (FileMode_IsDir (zf_Mode file)); unfold mbind, M_bind.
  - unfold os_MkdirAll.
    destruct (fs w !! _) as [[mode data|mode]|]; by rewrite IH.
  - unfold os_OpenFile_create_trunc.
    destruct (fs w !! _) as [[mode data|mode]|]; [|done|];
      (destruct (zf_Open file) as [rc|err]; [|done]);
      (match goal with
       | |- context [io_Copy ?f ?rc ?w1] =>
           pose proof (io_Copy_sent f rc w1) as Hcopy;
           destruct (io_Copy f rc w1) as [[err|] w2]
       end); cbn in *; by rewrite ?IH.
Qed.

(** [Extract] and [Save] send nothing. *)
Lemma Extract_sent (c : PDFClient) (zipBytes : slice byte)
    (outputPath : string) (w : World) :
  sent (Extract c zipBytes outputPath w).2 = sent w.
Proof.
  unfold Extract. destruct (zip_NewReader _) as [files|err]; [|done].
  apply extractFiles_sent.
Qed.

End Extraction.

Lemma Save_sent (c : PDFClient) (content : slice byte) (filePath : string)
    (w : World) :
  sent (Save c content filePath w).2 = sent w.
Proof.
  unfold Save. destruct (decide (filePath ≠ "")); [|done].
  unfold mbind, M_bind, os_WriteFile.
  by destruct (fs w !! filePath) as [[mode data|mode]|].
Qed.

(** C6: the archive has the one directory entry [docs/], and [out/docs]
    exists as a regular file.  [os.MkdirAll] fails on it, yet [Extract]
    returns no error.  On every platform, whatever [os.MkdirAll] returns
    for a directory entry, the extraction goes on with the entries behind
    it. *)
Theorem Extract_drops_mkdir_failure :
  zip_NewReader (Platform := platform_docs) docs_zip = Ok [docs_entry] ∧
  FileMode_IsDir (zf_Mode docs_entry) = true ∧
  filepath_Join (Platform := platform_docs) "out" (zf_Name docs_entry) =
    "out/docs" ∧
  os_MkdirAll "out/docs" os_ModePerm blocked_world =
    (Some (PathError "mkdir" "out/docs" "not a directory"), blocked_world) ∧
  Extract (H := platform_docs) sample_client (Some docs_zip) "out"
    blocked_world = (None, blocked_world) ∧
  ∀ (P : Platform) outputPath file rest w,
    FileMode_IsDir (zf_Mode file) = true →
    extractFiles (H := P) outputPath (file :: rest) w =
      extractFiles (H := P) outputPath rest
        (os_MkdirAll (filepath_Join outputPath (zf_Name file))
           os_ModePerm w).2.
Proof.
  do 5 (split; [vm_compute; reflexivity|]).
  intros P outputPath file rest w. apply extractFiles_directory.
Qed.

(** ** Headers on the wire *)

Lemma Header_Add_keeps (h : gmap string (list string))
    (key value k v : string) :
  v ∈ default [] (h !! k) → v ∈ default [] (Header_Add h key value !! k).
Proof.
  unfold Header_Add. intros Hv.
  destruct (decide (CanonicalMIMEHeaderKey key = k)) as [<-|Hne].
  - rewrite lookup_insert_eq. cbn. set_solver.
  - by rewrite lookup_insert_ne.
Qed.

Lemma Header_Add_adds (h : gmap string (list string)) (key value : string) :
  value ∈ Header_Values (Header_Add h key value) key.
Proof.
  unfold Header_Values, Header_Add. rewrite lookup_insert_eq. cbn. set_solver.
Qed.

Lemma addValues_keeps (key : string) (values : list string)
    (h : gmap string (list string)) (k v : string) :
  v ∈ default [] (h !! k) → v ∈ default [] (addValues key values h !! k).
Proof.
  revert h. induction values as [|value rest IH]; intros h Hv; [done|].
  cbn. apply IH. by apply Header_Add_keeps.
Qed.

Lemma addValues_adds (key : string) (values : list string)
    (h : gmap string (list string)) :
  values ⊆ Header_Values (addValues key values h) key.
Proof.
  revert h. induction values as [|value rest IH]; intros h v Hv.
  - by apply elem_of_nil in Hv.
  - apply elem_of_cons in Hv as [->|Hv]; cbn.
    + apply addValues_keeps, Header_Add_adds.
    + by apply IH.
Qed.

Lemma copyHeaders_keeps (headers : list (string * list string))
    (h : gmap string (list string)) (k v : string) :
  v ∈ default [] (h !! k) → v ∈ default [] (copyHeaders headers h !! k).
Proof.
  revert h. induction headers as [|[key values] rest IH]; intros h Hv; [done|].
  cbn. apply IH. by apply addValues_keeps.
Qed.

Lemma copyHeaders_adds (headers : list (string * list string))
    (h : gmap string (list string)) (key : string) (values : list string) :
  (key, values) ∈ headers →
  values ⊆ Header_Values (copyHeaders headers h) key.
Proof.
  revert h. induction headers as [|[key' values'] rest IH]; intros h Hin.
  - by apply elem_of_nil in Hin.
  - apply elem_of_cons in Hin as [[= <- <-]|Hin]; cbn.
    + intros v Hv. apply copyHeaders_keeps. by apply addValues_adds.
    + by apply IH.
Qed.

Section Headers.
Context `{Platform}.

(** The request of an upload has every value of every header of the
    client, under the canonical form of the header's name. *)
Lemma multipartRequest_headers (c : PDFClient) (url fileField : string)
    (fileData : slice byte) (filename : string)
    (extraFields : gmap string string) (key : string) (values : list string) :
  Headers c !! key = Some values →
  values ⊆ Header_Values
             (Header (multipartRequest c url fileField fileData filename
                        extraFields)) key.
Proof.
  intros Hlook. cbn. apply copyHeaders_adds.
  rewrite (rangeMap_perm _ (Headers c)).
  by apply elem_of_map_to_list.
Qed.

Lemma new_requests_same (w : World) : new_requests w w = [].
Proof. unfold new_requests. by rewrite drop_all. Qed.

Lemma new_requests_unsent (w w' : World) :
  sent w' = sent w → new_requests w w' = [].
Proof. unfold new_requests. intros ->. by rewrite drop_all. Qed.

Lemma new_requests_logged (w : World) (req : HTTPRequest) :
  new_requests w (log_request req w) = [req].
Proof. unfold new_requests, log_request. cbn. by rewrite drop_app_length. Qed.

(** The requests an upload sends are requests built by
    [makeMultipartPostRequest] for this client. *)
Lemma upload_outcome_requests (c : PDFClient)
    (op : M (slice byte * option error)) (w : World) (req : HTTPRequest) :
  upload_outcome c op w →
  req ∈ new_requests w (op w).2 →
  ∃ url fileData filename extraFields,
    req = multipartRequest c url "file" fileData filename extraFields.
Proof.
  intros [[err Hop]|(url & fileData & filename & extraFields & Hop)];
    cbn zeta in Hop; rewrite Hop; cbn [snd].
  - rewrite new_requests_same. by intros ?%elem_of_nil.
  - rewrite new_requests_logged. intros ->%list_elem_of_singleton. eauto 10.
Qed.

Lemma ValidateToken_requests (c : PDFClient) (w : World) (req : HTTPRequest) :
  req ∈ new_requests w (ValidateToken c w).2 → req = tokenRequest c.
Proof.
  rewrite ValidateToken_run. destruct (url_Parse _) as [err|]; cbn [snd].
  - rewrite new_requests_same. by intros ?%elem_of_nil.
  - rewrite new_requests_logged. by intros ->%list_elem_of_singleton.
Qed.

(** C3: take a client built by [NewPDFClient] from a key and any of the
    package's options.  Every request that an operation of the client sends
    (token validation and the uploads; [Save] and [Extract] send none) has
    the key among the values of its header [Authorization].  More generally,
    for any client whatever, the token request has the client's header set
    as its own, and an upload request has every value of every header of the
    client. *)
Theorem auth_header_on_every_request
    (apiKey : string) (options : list ClientOption) (c0 : PDFClient)
    (file : GoValue) (splits : slice Z) (ranges : slice (slice Z))
    (metadata : gmap string string) (content zipBytes : slice byte)
    (filePath outputPath : string) (w : World) :
  Forall is_setter options →
  let c := NewPDFClient apiKey options in
  Forall (λ w', Forall (λ req, apiKey ∈ Header_Values (Header req)
                                           "Authorization")
                       (new_requests w w'))
    [(ValidateToken c w).2; (Split c file splits w).2;
     (SplitZip c file ranges w).2; (EditMetadata c file metadata w).2;
     (Save c content filePath w).2; (Extract c zipBytes outputPath w).2] ∧
  Forall (λ req, Header req = Headers c0)
    (new_requests w (ValidateToken c0 w).2) ∧
  Forall (λ w', Forall (λ req,
              map_Forall (λ key values,
                values ⊆ Header_Values (Header req) key) (Headers c0))
            (new_requests w w'))
    [(Split c0 file splits w).2; (SplitZip c0 file ranges w).2;
     (EditMetadata c0 file metadata w).2].
Proof.
  intros Hopts c.
  assert (Headers c !! "Authorization" = Some [apiKey]) as Hauth.
  { destruct (NewPDFClient_setters apiKey options Hopts) as [_ Hh].
    unfold c. rewrite Hh. apply lookup_singleton_eq. }
  assert (∀ c' op, upload_outcome c' op w →
            Forall (λ req, map_Forall (λ key values,
                      values ⊆ Header_Values (Header req) key) (Headers c'))
                   (new_requests w (op w).2)) as Hcopy.
  { intros c' op Hop. apply Forall_forall. intros req Hreq.
    destruct (upload_outcome_requests c' op w req Hop Hreq)
      as (url & fileData & filename & extraFields & ->).
    intros key values Hlook. by apply multipartRequest_headers. }
  pose proof (uploads_outcome c file splits ranges metadata w) as Hc.
  pose proof (uploads_outcome c0 file splits ranges metadata w) as Hc0.
  split; [|split].
  - apply Forall_cons_2.
    + apply Forall_forall. intros req ->%ValidateToken_requests.
      unfold Header_Values. cbn [tokenRequest Header].
      change (CanonicalMIMEHeaderKey "Authorization") with "Authorization".
      rewrite Hauth. cbn. set_solver.
    + change [(Split c file splits w).2; (SplitZip c file ranges w).2;
              (EditMetadata c file metadata w).2;
              (Save c content filePath w).2;
              (Extract c zipBytes outputPath w).2]
        with (((λ op : M (slice byte * option error), (op w).2) <$>
                 [Split c file splits; SplitZip c file ranges;
                  EditMetadata c file metadata]) ++
              [(Save c content filePath w).2;
               (Extract c zipBytes outputPath w).2]).
      apply Forall_app_2.
      * eapply Forall_fmap, Forall_impl; [apply Hc|].
        intros op Hop. cbn. eapply Forall_impl; [apply (Hcopy c op Hop)|].
        intros req Hreq. cbn beta in Hreq.
        apply (Hreq "Authorization" [apiKey] Hauth). set_solver.
      * repeat apply Forall_cons_2; [| |apply Forall_nil_2].
        -- rewrite new_requests_unsent by apply Save_sent.
           apply Forall_nil_2.
        -- rewrite new_requests_unsent by apply Extract_sent.
           apply Forall_nil_2.
  - apply Forall_forall. by intros req ->%ValidateToken_requests.
  - change [(Split c0 file splits w).2; (SplitZip c0 file ranges w).2;
            (EditMetadata c0 file metadata w).2]
      with ((λ op : M (slice byte * option error), (op w).2) <$>
              [Split c0 file splits; SplitZip c0 file ranges;
               EditMetadata c0 file metadata]).
    eapply Forall_fmap, Forall_impl; [apply Hc0|].
    intros op Hop. by apply Hcopy.
Qed.

End Headers.

Lemma auth_header_witness :
  "api-key" ∈ Header_Values (Header (sample_split_request platform_ok))
                "Authorization".
Proof.
  destruct (auth_header_on_every_request (H := platform_ok) "api-key"
              [SetBaseURL "http://127.0.0.1:5011"; SetAPIVersion "v1"]
              sample_client (VString "input/sample.pdf") (Some [3; 7]) None
              ∅ None None "" "" sample_world) as [Hauth _].
  { repeat constructor. }
  apply Forall_cons_1 in Hauth as [_ Hauth].
  apply Forall_cons_1 in Hauth as [Hsplit _].
  assert (new_requests sample_world
            (Split (H := platform_ok) sample_client
               (VString "input/sample.pdf") (Some [3; 7]) sample_world).2 =
          [sample_split_request platform_ok]) as Hnew
    by (vm_compute; reflexivity).
  fold sample_client in Hsplit. rewrite Hnew in Hsplit.
  by apply Forall_cons_1 in Hsplit as [Hreq _].
Defined.

(** ** The field [splits] decodes back *)

(** *** Decimal digits *)

Lemma string_of_uint_digits (d : Decimal.uint) :
  all_chars is_digit (NilEmpty.string_of_uint d) = true.
Proof. induction d; cbn; auto. Qed.

Lemma to_uint_unorm (p : positive) :
  Decimal.unorm (Pos.to_uint p) = Pos.to_uint p.
Proof.
  rewrite <- DecimalPos.Unsigned.to_of, DecimalPos.Unsigned.of_to. done.
Qed.

(** The decimal form of a positive number does not start with [0]. *)
Lemma to_uint_head (p : positive) :
  match Pos.to_uint p with
  | Decimal.Nil | Decimal.D0 _ => False
  | _ => True
  end.
Proof.
  pose proof (to_uint_unorm p) as Hnorm.
  pose proof (DecimalPos.Unsigned.to_uint_nonzero p) as Hnz.
  destruct (Pos.to_uint p) as [|d| | | | | | | | |] eqn:Hd; try done.
  destruct (Decimal.uint_eq_dec d Decimal.Nil) as [->|Hnil]; [done|].
  pose proof (DecimalFacts.nb_digits_unorm d Hnil) as Hlen.
  rewrite DecimalFacts.unorm_D0 in Hnorm. rewrite Hnorm in Hlen.
  cbn in Hlen. lia.
Qed.

Lemma itoa_pos (p : positive) :
  itoa (Z.pos p) = NilEmpty.string_of_uint (Pos.to_uint p).
Proof.
  unfold itoa. cbn. pose proof (to_uint_head p) as Hhead.
  by destruct (Pos.to_uint p).
Qed.

Lemma itoa_neg (p : positive) :
  itoa (Z.neg p) = String "-" (NilEmpty.string_of_uint (Pos.to_uint p)).
Proof.
  unfold itoa. cbn. pose proof (to_uint_head p) as Hhead.
  by destruct (Pos.to_uint p).
Qed.

Lemma is_digit_word_char (c : ascii) :
  is_digit c = true → is_word_char c = true.
Proof. unfold is_word_char. by intros ->. Qed.

Lemma all_chars_impl (p q : ascii → bool) (s : string) :
  (∀ c, p c = true → q c = true) →
  all_chars p s = true → all_chars q s = true.
Proof.
  intros Hpq. induction s as [|c rest IH]; [done|].
  cbn. intros [Hc Hrest]%andb_prop. by rewrite (Hpq c Hc), IH.
Qed.

Lemma int_literal_itoa (n : Z) : int_literal (itoa n) = true.
Proof.
  destruct n as [|p|p]; [done|rewrite itoa_pos|rewrite itoa_neg];
    pose proof (to_uint_head p) as Hhead;
    destruct (Pos.to_uint p); try done;
    cbn; apply string_of_uint_digits.
Qed.

Lemma itoa_word_chars (n : Z) : all_chars is_word_char (itoa n) = true.
Proof.
  destruct n as [|p|p]; [done|rewrite itoa_pos|rewrite itoa_neg]; cbn;
    apply (all_chars_impl is_digit), string_of_uint_digits;
    apply is_digit_word_char.
Qed.

Lemma itoa_first_char (n : Z) :
  ∃ c rest, itoa n = String c rest ∧ (is_digit c = true ∨ c = "-"%char).
Proof.
  destruct n as [|p|p]; [by eexists _, _; split; [|left]|..].
  - rewrite itoa_pos. pose proof (to_uint_head p) as Hhead.
    destruct (Pos.to_uint p); try done; eexists _, _; split; try done;
      by left.
  - rewrite itoa_neg. eexists _, _; split; [done|by right].
Qed.

Lemma itoa_nonempty (n : Z) : itoa n ≠ "".
Proof. destruct (itoa_first_char n) as (c & rest & -> & _). done. Qed.

Lemma itoa_not_null (n : Z) : itoa n ≠ "null".
Proof.
  destruct (itoa_first_char n) as (c & rest & -> & [Hc| ->]); [|done].
  intros [= -> _]. done.
Qed.

Lemma int_of_string_itoa (n : Z) :
  NilZero.int_of_string (itoa n) = Some (Z.to_int n).
Proof.
  unfold itoa. apply NilZero.isi.
  - destruct n as [|p|p]; cbn; try done.
    intros [= Hnil]. by apply (DecimalPos.Unsigned.to_uint_nonnil p).
  - destruct n as [|p|p]; cbn; try done.
    intros [= Hnil]. by apply (DecimalPos.Unsigned.to_uint_nonnil p).
Qed.

(** The decimal form of a Go [int] is read back as that number. *)
Lemma token_of_word_itoa (n : Z) :
  go_int_ok n = true → token_of_word (itoa n) = Some (TNum n).
Proof.
  intros Hok. unfold token_of_word.
  rewrite decide_False by apply itoa_not_null.
  rewrite int_literal_itoa, int_of_string_itoa, DecimalZ.of_to.
  by rewrite Hok.
Qed.

Create HintDb itoa discriminated.
#[local] Hint Resolve itoa_nonempty itoa_word_chars token_of_word_itoa : itoa.

(** *** The scanner on the encoder's output *)

Lemma append_cons (c : ascii) (s t : string) :
  String c s +:+ t = String c (s +:+ t).
Proof. done. Qed.

Lemma append_nil_r (s : string) : s +:+ "" = s.
Proof. induction s as [|c s IH]; [done|]. by rewrite append_cons, IH. Qed.

Lemma append_assoc (s t u : string) : (s +:+ t) +:+ u = s +:+ t +:+ u.
Proof.
  induction s as [|c s IH]; [done|]. by rewrite !append_cons, IH.
Qed.

Lemma fmap_app_app (a b : list token) (o : option (list token)) :
  (a ++.) <$> ((b ++.) <$> o) = ((a ++ b) ++.) <$> o.
Proof. destruct o as [ts|]; [|done]. cbn. by rewrite app_assoc. Qed.

Lemma fmap_app_nil (o : option (list token)) : ([] ++.) <$> o = o.
Proof. by destruct o. Qed.

Lemma concat_comma (item : string) (items : list string) :
  String.concat "," (item :: items) = item +:+ comma_tail items.
Proof.
  revert item. induction items as [|next items IH]; intros item.
  - cbn. by rewrite append_nil_r.
  - change (String.concat "," (item :: next :: items))
      with (item +:+ "," +:+ String.concat "," (next :: items)).
    by rewrite IH.
Qed.

Lemma lex_word_app (w acc s : string) :
  all_chars is_word_char w = true → lex acc (w +:+ s) = lex (acc +:+ w) s.
Proof.
  revert acc. induction w as [|c w IH]; intros acc Hw.
  - by rewrite append_nil_r.
  - cbn in Hw. apply andb_prop in Hw as [Hc Hw].
    rewrite append_cons. cbn [lex]. rewrite Hc, (IH _ Hw), append_assoc.
    done.
Qed.

Lemma lex_separator (word : string) (c : ascii) (rest : string) :
  c = ","%char ∨ c = "]"%char →
  ∃ t, punct c = Some t ∧
       lex word (String c rest) = flush word (cons t <$> lex "" rest).
Proof. intros [-> | ->]; eexists; split; done. Qed.

Lemma lex_comma (s : string) :
  lex "" (String "," s) = cons TComma <$> lex "" s.
Proof. done. Qed.

Lemma lex_lbrack (s : string) :
  lex "" (String "[" s) = cons TLBrack <$> lex "" s.
Proof. done. Qed.

Lemma lex_rbrack (s : string) :
  lex "" (String "]" s) = cons TRBrack <$> lex "" s.
Proof. done. Qed.

Lemma flush_word (word : string) (t : token) (k : option (list token)) :
  word ≠ "" → token_of_word word = Some t → flush word k = cons t <$> k.
Proof.
  intros Hne Htok. unfold flush. rewrite decide_False by done.
  rewrite Htok. by destruct k.
Qed.

(** A literal is scanned as its token when a separator follows. *)
Lemma lexes_item_word (word : string) (t : token) :
  word ≠ "" → all_chars is_word_char word = true →
  token_of_word word = Some t → lexes_item word [t].
Proof.
  intros Hne Hchars Htok c rest Hc.
  rewrite (lex_word_app _ _ _ Hchars).
  change ("" +:+ word) with word.
  destruct (lex_separator word c rest Hc) as (t' & Hpunct & ->).
  destruct (lex_separator "" c rest Hc) as (t'' & Hpunct' & ->).
  assert (t'' = t') as -> by congruence.
  rewrite (flush_word word t _ Hne Htok).
  unfold flush. rewrite decide_True by done.
  by destruct (lex "" rest).
Qed.

Lemma lexes_open_item (x : string) (ts : list token) :
  lexes_open x ts → lexes_item x ts.
Proof. intros Hopen c rest _. apply Hopen. Qed.

Lemma comma_tail_separator (items : list string) (rest : string) :
  ∃ c r, comma_tail items +:+ String "]" rest = String c r ∧
         (c = ","%char ∨ c = "]"%char).
Proof.
  destruct items as [|item items]; cbn [comma_tail].
  - eexists _, _. split; [done|by right].
  - eexists _, _. split; [done|by left].
Qed.

Lemma lex_comma_tail (items : list string) (tss : list (list token))
    (rest : string) :
  Forall2 lexes_item items tss →
  lex "" (comma_tail items +:+ String "]" rest) =
    (concat ((λ ts, TComma :: ts) <$> tss) ++.) <$> lex "" (String "]" rest).
Proof.
  induction 1 as [|item ts items tss Hitem _ IH].
  - cbn [comma_tail fmap list_fmap concat]. by rewrite fmap_app_nil.
  - cbn [comma_tail]. rewrite !append_assoc.
    change ("," +:+ item +:+ comma_tail items +:+ String "]" rest)
      with (String "," (item +:+ comma_tail items +:+ String "]" rest)).
    destruct (comma_tail_separator items rest) as (c & r & Heq & Hc).
    rewrite lex_comma, Heq, (Hitem c r Hc), <- Heq, IH.
    destruct (lex "" (String "]" rest)) as [more|]; [|done].
    cbn. by rewrite <- app_assoc.
Qed.

(** An array of items is scanned as a whole, whatever follows it. *)
Lemma lexes_open_array (items : list string) (tss : list (list token)) :
  Forall2 lexes_item items tss →
  lexes_open (json_array items) (array_tokens tss).
Proof.
  intros Hitems rest. unfold json_array, array_tokens.
  rewrite !append_assoc.
  change ("[" +:+ String.concat "," items +:+ "]" +:+ rest)
    with (String "[" (String.concat "," items +:+ String "]" rest)).
  rewrite lex_lbrack.
  assert (lex "" (String.concat "," items +:+ String "]" rest) =
          (sep_tokens tss ++.) <$> lex "" (String "]" rest)) as ->.
  { destruct Hitems as [|item ts items tss Hitem Hitems].
    - cbn [String.concat sep_tokens]. by rewrite fmap_app_nil.
    - rewrite concat_comma, append_assoc.
      destruct (comma_tail_separator items rest) as (c & r & Heq & Hc).
      rewrite Heq, (Hitem c r Hc), <- Heq, (lex_comma_tail _ _ _ Hitems).
      by rewrite fmap_app_app. }
  rewrite lex_rbrack.
  destruct (lex "" rest) as [more|]; [|done].
  cbn. by rewrite <- app_assoc.
Qed.

(** *** The parser on the encoder's tokens *)

Lemma parses_value_num (n : Z) : parses_value [TNum n] (JNum n).
Proof. intros stack rest. by split. Qed.

Lemma parses_value_null : parses_value [TNull] JNull.
Proof. intros stack rest. by split. Qed.

Lemma prun_more_items (tss : list (list token)) (vs : list json)
    (top : list json) (stack : list (list json)) (rest : list token) :
  Forall2 parses_value tss vs →
  prun (PAfter (top :: stack))
       (concat ((λ ts, TComma :: ts) <$> tss) ++ TRBrack :: rest) =
    prun (push (JArr (reverse top ++ vs)) stack) rest.
Proof.
  intros Hitems. revert top.
  induction Hitems as [|ts v tss vs Hv _ IH]; intros top.
  - cbn. by rewrite app_nil_r.
  - cbn [fmap list_fmap concat]. rewrite <- !app_assoc.
    cbn [app prun pstep mbind option_bind].
    destruct (Hv (top :: stack)
                (concat ((λ ts, TComma :: ts) <$> tss) ++ TRBrack :: rest))
      as [-> _].
    cbn [push]. rewrite IH, reverse_cons, <- app_assoc. done.
Qed.

Lemma parses_value_array (tss : list (list token)) (vs : list json) :
  Forall2 parses_value tss vs → parses_value (array_tokens tss) (JArr vs).
Proof.
  intros Hitems stack rest. unfold array_tokens.
  assert (prun (PFirst ([] :: stack)) (sep_tokens tss ++ TRBrack :: rest) =
          prun (push (JArr vs) stack) rest) as Hbody.
  { destruct Hitems as [|ts v tss vs Hv Hitems]; [done|].
    cbn [sep_tokens]. rewrite <- app_assoc.
    destruct (Hv ([] :: stack)
                (concat ((λ ts, TComma :: ts) <$> tss) ++ TRBrack :: rest))
      as [_ ->].
    cbn [push]. by rewrite (prun_more_items _ _ _ _ _ Hitems). }
  rewrite <- app_comm_cons, <- app_assoc. cbn [app].
  split; exact Hbody.
Qed.

Lemma parse_value (ts : list token) (v : json) :
  parses_value ts v → parse ts = Some v.
Proof.
  intros Hv. unfold parse. destruct (Hv [] []) as [Hrun _].
  rewrite app_nil_r in Hrun. by rewrite Hrun.
Qed.

(** *** Slices of integers *)

Lemma ints_lex_items (l : list Z) :
  Forall (λ n, go_int_ok n = true) l →
  Forall2 lexes_item (itoa <$> l) ((λ n, [TNum n]) <$> l).
Proof.
  intros Hok. apply Forall2_fmap, Forall_Forall2_diag.
  eapply Forall_impl; [exact Hok|]. intros n Hn. cbn.
  apply lexes_item_word; auto with itoa.
Qed.

Lemma lexes_item_ints (s : slice Z) :
  ints_ok s → lexes_item (json_encode_ints s) (ints_tokens s).
Proof.
  destruct s as [l|]; intros Hok.
  - apply lexes_open_item, lexes_open_array, ints_lex_items, Hok.
  - by apply lexes_item_word.
Qed.

Lemma lex_top (x : string) (ts : list token) :
  lexes_open x ts → lex "" x = Some ts.
Proof.
  intros Hopen. specialize (Hopen ""). rewrite append_nil_r in Hopen.
  rewrite Hopen. change (lex "" "") with (Some (@nil token)).
  cbn [fmap option_fmap option_map]. by rewrite app_nil_r.
Qed.

Lemma lex_encode_ints (s : slice Z) :
  ints_ok s → lex "" (json_encode_ints s) = Some (ints_tokens s).
Proof.
  destruct s as [l|]; intros Hok; [|done].
  apply lex_top, lexes_open_array, ints_lex_items, Hok.
Qed.

Lemma lex_encode_intss (s : slice (slice Z)) :
  intss_ok s → lex "" (json_encode_intss s) = Some (intss_tokens s).
Proof.
  destruct s as [l|]; intros Hok; [|done].
  apply lex_top, lexes_open_array, Forall2_fmap, Forall_Forall2_diag.
  eapply Forall_impl; [exact Hok|]. intros r Hr. by apply lexes_item_ints.
Qed.

Lemma parses_value_ints (s : slice Z) :
  parses_value (ints_tokens s) (ints_json s).
Proof.
  destruct s as [l|]; [|apply parses_value_null].
  apply parses_value_array, Forall2_fmap, Forall_Forall2_diag, Forall_true.
  intros n. apply parses_value_num.
Qed.

Lemma parses_value_intss (s : slice (slice Z)) :
  parses_value (intss_tokens s) (intss_json s).
Proof.
  destruct s as [l|]; [|apply parses_value_null].
  apply parses_value_array, Forall2_fmap, Forall_Forall2_diag, Forall_true.
  intros r. apply parses_value_ints.
Qed.

Lemma json_to_ints_json (s : slice Z) : json_to_ints (ints_json s) = Some s.
Proof.
  destruct s as [l|]; [|done]. cbn.
  assert (mapM json_to_int (JNum <$> l) = Some l) as ->; [|done].
  apply mapM_Some, Forall2_fmap_l, Forall_Forall2_diag, Forall_true. done.
Qed.

Lemma json_to_intss_json (s : slice (slice Z)) :
  json_to_intss (intss_json s) = Some s.
Proof.
  destruct s as [l|]; [|done]. cbn.
  assert (mapM json_to_ints (ints_json <$> l) = Some l) as ->; [|done].
  apply mapM_Some, Forall2_fmap_l, Forall_Forall2_diag, Forall_true.
  intros r. apply json_to_ints_json.
Qed.

(** What [json.Marshal] writes for a [[]int] decodes to the same slice. *)
Lemma Unmarshal_Marshal_ints (s : slice Z) :
  ints_ok s → json_Unmarshal_ints (json_encode_ints s) = Some s.
Proof.
  intros Hok. unfold json_Unmarshal_ints, json_decode.
  rewrite (lex_encode_ints s Hok). cbn.
  rewrite (parse_value _ _ (parses_value_ints s)). cbn.
  apply json_to_ints_json.
Qed.

(** What [json.Marshal] writes for a [[][]int] decodes to the same slice. *)
Lemma Unmarshal_Marshal_intss (s : slice (slice Z)) :
  intss_ok s → json_Unmarshal_intss (json_encode_intss s) = Some s.
Proof.
  intros Hok. unfold json_Unmarshal_intss, json_decode.
  rewrite (lex_encode_intss s Hok). cbn.
  rewrite (parse_value _ _ (parses_value_intss s)). cbn.
  apply json_to_intss_json.
Qed.

(** *** The requests of [Split] and [SplitZip] *)

Section Splits.
Context `{Platform}.

Lemma rangeMap_singleton {A} (key : string) (value : A) :
  rangeMap ({[ key := value ]} : gmap string A) = [(key, value)].
Proof.
  pose proof (rangeMap_perm A {[ key := value ]}) as Hperm.
  rewrite map_to_list_singleton in Hperm.
  by apply Permutation_singleton_r in Hperm.
Qed.

(** An upload with one extra field sends one request whose body is the file
    part followed by that field. *)
Lemma upload_one_field (c : PDFClient) (url : string) (fileData : slice byte)
    (filename key value : string) (w : World) :
  url_Parse url = None →
  ∃ req,
    new_requests w
      (makeMultipartPostRequest c url "file" fileData filename
         {[ key := value ]} w).2 = [req] ∧
    Method req = "POST" ∧
    URL req = url ∧
    Body req = [FilePart "file" filename (slice_elems fileData);
                FieldPart key value].
Proof.
  intros Hurl. rewrite makeMultipartPostRequest_run, Hurl. cbn [snd].
  rewrite new_requests_logged. eexists. split; [done|].
  cbn. by rewrite rangeMap_singleton.
Qed.

(** C7: when the file can be read and the endpoint URL parses, [Split]
    sends one request whose body is exactly one file part and one field
    named [splits], and [json.Unmarshal] turns the value of that field,
    which is what [json.Marshal] wrote, back into the list of breakpoints;
    [SplitZip] does the same with its list of ranges.  The integers are Go
    [int]s, so they fit 64 bits. *)
Theorem splits_field_round_trip
    (c : PDFClient) (file : GoValue) (splits : slice Z)
    (ranges : slice (slice Z)) (w : World) (filename : string)
    (fileContent : slice byte) (contentType : string) :
  ints_ok splits →
  intss_ok ranges →
  (readFile file w).1 = (filename, fileContent, contentType, None) →
  url_Parse (BaseURL c +:+ "/pdf/split") = None →
  url_Parse (BaseURL c +:+ "/pdf/split-zip") = None →
  (∃ req data,
     new_requests w (Split c file splits w).2 = [req] ∧
     Body req = [FilePart "file" filename (slice_elems fileContent);
                 FieldPart "splits" data] ∧
     json_Marshal_ints splits = Ok data ∧
     json_Unmarshal_ints data = Some splits) ∧
  (∃ req data,
     new_requests w (SplitZip c file ranges w).2 = [req] ∧
     Body req = [FilePart "file" filename (slice_elems fileContent);
                 FieldPart "splits" data] ∧
     json_Marshal_intss ranges = Ok data ∧
     json_Unmarshal_intss data = Some ranges).
Proof.
  intros Hsplits Hranges Hread Hurl Hurlzip. split.
  - rewrite Split_run, Hread.
    destruct (upload_one_field c _ fileContent filename "splits"
                (json_encode_ints splits) w Hurl)
      as (req & Hsent & _ & _ & Hbody).
    exists req, (json_encode_ints splits).
    auto using Unmarshal_Marshal_ints.
  - rewrite SplitZip_run, Hread.
    destruct (upload_one_field c _ fileContent filename "splits"
                (json_encode_intss ranges) w Hurlzip)
      as (req & Hsent & _ & _ & Hbody).
    exists req, (json_encode_intss ranges).
    auto using Unmarshal_Marshal_intss.
Qed.

End Splits.

Lemma splits_field_witness :
  ∃ req data,
    new_requests sample_world
      (Split (H := platform_ok) sample_client (VString "input/sample.pdf")
         (Some [3; 7]) sample_world).2 = [req] ∧
    Body req = [FilePart "file" "sample.pdf" pdf_bytes;
                FieldPart "splits" data] ∧
    json_Marshal_ints (Some [3; 7]) = Ok data ∧
    json_Unmarshal_ints data = Some (Some [3; 7]).
Proof.
  apply (splits_field_round_trip (H := platform_ok) sample_client
           (VString "input/sample.pdf") (Some [3; 7])
           (Some [Some [0; 1]; Some [1; 2]]) sample_world "sample.pdf"
           (Some pdf_bytes) "application/pdf").
  - repeat constructor.
  - repeat constructor.
  - vm_compute. reflexivity.
  - vm_compute. reflexivity.
  - vm_compute. reflexivity.
Defined.

(** The examples of the specification, run through encoder and decoder. *)
Example marshal_3_7 : json_Marshal_ints (Some [3; 7]) = Ok "[3,7]".
Proof. vm_compute. reflexivity. Qed.

Example unmarshal_3_7 : json_Unmarshal_ints "[3,7]" = Some (Some [3; 7]).
Proof. vm_compute. reflexivity. Qed.

Example marshal_pairs :
  json_Marshal_intss (Some [Some [0; 1]; Some [1; 2]]) = Ok "[[0,1],[1,2]]".
Proof. vm_compute. reflexivity. Qed.

Example unmarshal_pairs :
  json_Unmarshal_intss "[[0,1],[1,2]]" = Some (Some [Some [0; 1]; Some [1; 2]]).
Proof. vm_compute. reflexivity. Qed.

Example marshal_empty_and_nil :
  json_Marshal_ints (Some []) = Ok "[]" ∧ json_Marshal_ints None = Ok "null".
Proof. split; vm_compute; reflexivity. Qed.

Example unmarshal_rejects :
  json_Unmarshal_ints "[3,07]" = None ∧
  json_Unmarshal_ints "[3,]" = None ∧
  json_Unmarshal_ints "[9223372036854775808]" = None ∧
  json_Unmarshal_ints "[[1]]" = None.
Proof. repeat split; vm_compute; reflexivity. Qed.

(** * Further properties *)

(** ** Options and the two constructors *)

Lemma applyOptions_app (first second : list ClientOption) (c : PDFClient) :
  applyOptions (first ++ second) c =
    applyOptions second (applyOptions first c).
Proof. unfold applyOptions. apply foldl_app. Qed.

Lemma applyOptions_setters_formats (options : list ClientOption)
    (c : PDFClient) :
  Forall is_setter options →
  SupportedImageFormats (applyOptions options c) = SupportedImageFormats c.
Proof.
  intros Hall. revert c.
  induction Hall as [|o os Ho _ IH]; intros c; [done|].
  change (applyOptions (o :: os) c) with (applyOptions os (o c)).
  rewrite IH. by destruct Ho.
Qed.

(** X1: the options are applied in order and the last one of each kind
    wins: whatever options of the package come first, a client built with
    [SetBaseURL u] and [SetAPIVersion v] at the end, in either order, is the
    client built with these two alone. *)
Theorem later_options_override
    (apiKey u v : string) (options : list ClientOption) :
  Forall is_setter options →
  NewPDFClient apiKey (options ++ [SetBaseURL u; SetAPIVersion v]) =
    NewPDFClient apiKey [SetBaseURL u; SetAPIVersion v] ∧
  NewPDFClient apiKey (options ++ [SetAPIVersion v; SetBaseURL u]) =
    NewPDFClient apiKey [SetBaseURL u; SetAPIVersion v].
Proof.
  intros Hall.
  destruct (applyOptions_setters_keep options (defaultClient apiKey) Hall)
    as [Hkey Hheaders].
  pose proof (applyOptions_setters_formats options (defaultClient apiKey) Hall)
    as Hformats.
  split; unfold NewPDFClient; rewrite applyOptions_app; cbn;
    by rewrite Hkey, Hheaders, Hformats.
Qed.

Lemma later_options_override_witness :
  NewPDFClient "api-key"
    ([SetAPIVersion "v0"; SetBaseURL "http://old"; SetBaseURL "http://older"]
       ++ [SetBaseURL "http://127.0.0.1:5011"; SetAPIVersion "v1"]) =
  sample_client.
Proof.
  apply (later_options_override "api-key" "http://127.0.0.1:5011" "v1"
           [SetAPIVersion "v0"; SetBaseURL "http://old";
            SetBaseURL "http://older"]).
  repeat constructor.
Defined.

(** X2: the earlier constructor, given a key, a base URL and a version,
    builds what the present one builds from the key and the two options: the
    same version, base URL, key and headers.  Their token validations then
    send the same request and agree on the verdict and on whether there is
    an error; the earlier one reports a status other than 200 as the plain
    error [failed to validate token]. *)
Theorem legacy_client_agrees `{Platform}
    (apiKey baseURL apiVersion : string) (w : World) :
  let old := Legacy.NewPDFClient apiKey baseURL apiVersion in
  let new := NewPDFClient apiKey [SetBaseURL baseURL; SetAPIVersion apiVersion] in
  Legacy.APIVersion old = APIVersion new ∧
  Legacy.BaseURL old = BaseURL new ∧
  Legacy.APIKey old = APIKey new ∧
  Legacy.Headers old = Headers new ∧
  (Legacy.ValidateToken old w).2 = (ValidateToken new w).2 ∧
  (Legacy.ValidateToken old w).1.1 = (ValidateToken new w).1.1 ∧
  ((Legacy.ValidateToken old w).1.2 = None ↔
   (ValidateToken new w).1.2 = None) ∧
  ((Legacy.ValidateToken old w).1.2 = (ValidateToken new w).1.2 ∨
   (Legacy.ValidateToken old w).1.2 =
     Some (Errorf "failed to validate token") ∧
   ∃ resp, RespStatusCode resp ≠ 200 ∧
           (ValidateToken new w).1.2 = Some (PDFErr (NewPDFError resp))).
Proof.
  cbn zeta. unfold Legacy.ValidateToken, ValidateToken, http_NewRequest. cbn.
  unfold sprintf_s_slash_s.
  destruct (url_Parse _) as [err|]; cbn.
  { repeat split; auto. }
  unfold mbind, M_bind, http_Do; cbn.
  destruct (roundTrip _) as [resp|err]; cbn.
  - destruct (decide (RespStatusCode resp ≠ http_StatusOK)); cbn;
      repeat split; try done; eauto 10.
  - repeat split; auto.
Qed.

(** ** What goes out, and what comes back *)

Section Wire.
Context `{Platform}.

Lemma makeMultipartPostRequest_requests (c : PDFClient)
    (url fileField : string) (fileData : slice byte) (filename : string)
    (extraFields : gmap string string) (w : World) (req : HTTPRequest) :
  req ∈ new_requests w
          (makeMultipartPostRequest c url fileField fileData filename
             extraFields w).2 →
  url_Parse url = None ∧
  req = multipartRequest c url fileField fileData filename extraFields.
Proof.
  rewrite makeMultipartPostRequest_run.
  destruct (url_Parse url) as [err|]; cbn [snd].
  - rewrite new_requests_same. by intros ?%elem_of_nil.
  - rewrite new_requests_logged. by intros ->%list_elem_of_singleton.
Qed.

(** The requests of the three uploads: the file as [readFile] returned it,
    the endpoint, and one extra field. *)
Lemma uploads_requests (c : PDFClient) (file : GoValue) (splits : slice Z)
    (ranges : slice (slice Z)) (metadata : gmap string string) (w : World) :
  Forall2 (λ op suffix_key,
      ∀ req, req ∈ new_requests w (op w).2 →
        ∃ filename fileContent contentType value,
          (readFile file w).1 = (filename, fileContent, contentType, None) ∧
          req = multipartRequest c (BaseURL c +:+ suffix_key.1) "file"
                  fileContent filename {[ suffix_key.2 := value ]})
    (uploads c file splits ranges metadata)
    [("/pdf/split", "splits"); ("/pdf/split-zip", "splits");
     ("/pdf/metadata", "metadata")].
Proof.
  unfold uploads. repeat apply Forall2_cons_2; [| | |apply Forall2_nil_2];
    intros req; cbn [fst snd].
  - rewrite Split_run.
    destruct (readFile file w).1 as [[[filename fileContent] ct] [err|]].
    + rewrite new_requests_same. by intros ?%elem_of_nil.
    + intros [_ ->]%makeMultipartPostRequest_requests. eauto 10.
  - rewrite SplitZip_run.
    destruct (readFile file w).1 as [[[filename fileContent] ct] [err|]].
    + rewrite new_requests_same. by intros ?%elem_of_nil.
    + intros [_ ->]%makeMultipartPostRequest_requests. eauto 10.
  - rewrite EditMetadata_run.
    destruct (readFile file w).1 as [[[filename fileContent] ct] [err|]].
    + rewrite new_requests_same. by intros ?%elem_of_nil.
    + destruct (json_Marshal_map metadata) as [js|err].
      * intros [_ ->]%makeMultipartPostRequest_requests. eauto 10.
      * rewrite new_requests_same. by intros ?%elem_of_nil.
Qed.

Lemma multipartRequest_one_field (c : PDFClient) (url : string)
    (fileData : slice byte) (filename key value : string) :
  Body (multipartRequest c url "file" fileData filename {[ key := value ]}) =
    [FilePart "file" filename (slice_elems fileData); FieldPart key value].
Proof. cbn. by rewrite rangeMap_singleton. Qed.

(** X3: token validation says [true] exactly when it returns no error, and
    that is exactly when the URL parses and the service answers the token
    request with status 200.  It sends that one request when the URL parses
    and none otherwise, and never touches the file system. *)
Theorem ValidateToken_verdict (c : PDFClient) (w : World) :
  ((ValidateToken c w).1.1 = true ↔ (ValidateToken c w).1.2 = None) ∧
  ((ValidateToken c w).1.1 = true ↔
     url_Parse (BaseURL c +:+ "/token") = None ∧
     ∃ resp, roundTrip (tokenRequest c) = Ok resp ∧
             RespStatusCode resp = 200) ∧
  new_requests w (ValidateToken c w).2 =
    match url_Parse (BaseURL c +:+ "/token") with
    | None => [tokenRequest c]
    | Some _ => []
    end ∧
  fs (ValidateToken c w).2 = fs w.
Proof.
  rewrite ValidateToken_run.
  destruct (url_Parse _) as [err|]; cbn [fst snd].
  { rewrite new_requests_same. repeat split; try done. by intros [? _]. }
  rewrite new_requests_logged.
  destruct (roundTrip _) as [resp|err]; cbn.
  - unfold http_StatusOK.
    destruct (decide (RespStatusCode resp ≠ 200)) as [Hne|Heq]; cbn.
    + repeat split; try done. by intros [_ (resp' & [= <-] & ?)].
    + apply dec_stable in Heq. repeat split; eauto.
  - repeat split; try done. by intros [_ (resp & ? & _)].
Qed.

Lemma upload_outcome_result (c : PDFClient)
    (op : M (slice byte * option error)) (w : World) (req : HTTPRequest) :
  upload_outcome c op w →
  sent (op w).2 = sent w ++ [req] →
  (op w).1 = upload_result (roundTrip req).
Proof.
  intros [[err Hop]|(url & fileData & filename & extraFields & Hop)] Hsent;
    cbn zeta in Hop; rewrite Hop in *; cbn in Hsent.
  - by destruct (sent_not_grown w req).
  - apply app_inv_head in Hsent. by injection Hsent as ->.
Qed.

(** X4: when the transport fails on the request an operation sent (the
    connection is refused, say), the operation returns that error as it is,
    with no content or with [false]. *)
Theorem transport_error_surfaces
    (c : PDFClient) (file : GoValue) (splits : slice Z)
    (ranges : slice (slice Z)) (metadata : gmap string string)
    (w : World) (req : HTTPRequest) (err : error) :
  roundTrip req = Err err →
  Forall (λ op : M (slice byte * option error),
      sent (op w).2 = sent w ++ [req] → (op w).1 = (None, Some err))
    (uploads c file splits ranges metadata) ∧
  (sent (ValidateToken c w).2 = sent w ++ [req] →
   (ValidateToken c w).1 = (false, Some err)).
Proof.
  intros Hdown. split.
  - eapply Forall_impl; [apply uploads_outcome|].
    intros op Hop Hsent. cbn beta in *.
    by rewrite (upload_outcome_result c op w req Hop Hsent), Hdown.
  - rewrite ValidateToken_run.
    destruct (url_Parse _) as [err'|]; cbn; intros Hsent.
    + by destruct (sent_not_grown w req).
    + apply app_inv_head in Hsent. injection Hsent as <-. by rewrite Hdown.
Qed.

(** X5: when the endpoint URL does not parse, nothing is sent and the
    parse error is returned as it is: by token validation, and by an upload
    whose file could be read (and, for [EditMetadata], whose metadata could be
    encoded). *)
Theorem bad_url_sends_nothing
    (c : PDFClient) (file : GoValue) (splits : slice Z)
    (ranges : slice (slice Z)) (metadata : gmap string string) (w : World)
    (filename : string) (fileContent : slice byte) (contentType js : string)
    (err : error) :
  (readFile file w).1 = (filename, fileContent, contentType, None) →
  json_Marshal_map metadata = Ok js →
  (url_Parse (BaseURL c +:+ "/token") = Some err →
   ValidateToken c w = ((false, Some err), w)) ∧
  (url_Parse (BaseURL c +:+ "/pdf/split") = Some err →
   Split c file splits w = ((None, Some err), w)) ∧
  (url_Parse (BaseURL c +:+ "/pdf/split-zip") = Some err →
   SplitZip c file ranges w = ((None, Some err), w)) ∧
  (url_Parse (BaseURL c +:+ "/pdf/metadata") = Some err →
   EditMetadata c file metadata w = ((None, Some err), w)).
Proof.
  intros Hread Hjs. repeat split; intros Hurl.
  - by rewrite ValidateToken_run, Hurl.
  - by rewrite Split_run, Hread, makeMultipartPostRequest_run, Hurl.
  - by rewrite SplitZip_run, Hread, makeMultipartPostRequest_run, Hurl.
  - by rewrite EditMetadata_run, Hread, Hjs, makeMultipartPostRequest_run,
      Hurl.
Qed.

(** X6: when [os.ReadFile] fails on the path, [readFile] returns that
    error as it is, with the base name of the path, the slice that
    [os.ReadFile] gave back (nil when the file could not be opened, not nil
    when it opened and reading failed) and an empty content type; every
    upload returns no content and that error, without sending anything. *)
Theorem read_failure_surfaces
    (c : PDFClient) (path : string) (splits : slice Z)
    (ranges : slice (slice Z)) (metadata : gmap string string)
    (w : World) (data : slice byte) (err : error) :
  (os_ReadFile path w).1 = (data, Some err) →
  readFile (VString path) w = ((filepath_Base path, data, "", Some err), w) ∧
  Forall (λ op : M (slice byte * option error),
            op w = ((None, Some err), w))
    (uploads c (VString path) splits ranges metadata).
Proof.
  intros Hread.
  assert (readFile (VString path) w =
            ((filepath_Base path, data, "", Some err), w)) as Hfile.
  { cbn. unfold mbind, M_bind. unfold os_ReadFile in *.
    destruct (fs w !! path) as [[mode old|mode]|]; cbn in *;
      by simplify_eq. }
  split; [done|].
  unfold uploads. repeat apply Forall_cons_2; [| | |apply Forall_nil_2].
  - by rewrite Split_run, Hfile.
  - by rewrite SplitZip_run, Hfile.
  - by rewrite EditMetadata_run, Hfile.
Qed.

End Wire.

Lemma transport_error_witness :
  (Split (H := platform_down) sample_client (VString "input/sample.pdf")
     (Some [3; 7]) sample_world).1 =
  (None, Some (ExternalErr
     "dial tcp 127.0.0.1:5011: connect: connection refused")).
Proof.
  destruct (transport_error_surfaces (H := platform_down) sample_client
              (VString "input/sample.pdf") (Some [3; 7]) None ∅ sample_world
              (sample_split_request platform_down)
              (ExternalErr
                 "dial tcp 127.0.0.1:5011: connect: connection refused")
              eq_refl) as [Huploads _].
  apply Forall_cons_1 in Huploads as [Hsplit _].
  apply Hsplit. vm_compute. reflexivity.
Defined.

Lemma bad_url_witness :
  Split (H := platform_ok) misconfigured_client (VString "input/sample.pdf")
    (Some [3; 7]) sample_world =
  ((None, Some (ExternalErr "net/url: invalid character in URL")),
   sample_world).
Proof.
  destruct (bad_url_sends_nothing (H := platform_ok) misconfigured_client
              (VString "input/sample.pdf") (Some [3; 7]) None ∅ sample_world
              "sample.pdf" (Some pdf_bytes) "application/pdf" "{}"
              (ExternalErr "net/url: invalid character in URL"))
    as (_ & Hsplit & _).
  - vm_compute. reflexivity.
  - vm_compute. reflexivity.
  - apply Hsplit. vm_compute. reflexivity.
Defined.

Lemma read_failure_witness :
  Split (H := platform_ok) sample_client (VString "input/missing.pdf")
    (Some [3; 7]) sample_world =
  ((None, Some (PathError "open" "input/missing.pdf"
                  "no such file or directory")), sample_world) ∧
  readFile (H := platform_ok) (VString "output") sample_world =
  (("output", Some [], "",
    Some (PathError "read" "output" "is a directory")), sample_world).
Proof.
  split.
  - destruct (read_failure_surfaces (H := platform_ok) sample_client
                "input/missing.pdf" (Some [3; 7]) None ∅ sample_world None
                (PathError "open" "input/missing.pdf"
                   "no such file or directory")) as [_ Huploads].
    + vm_compute. reflexivity.
    + by apply Forall_cons_1 in Huploads as [Hsplit _].
  - apply (read_failure_surfaces (H := platform_ok) sample_client
             "output" None None ∅ sample_world (Some [])
             (PathError "read" "output" "is a directory")).
    vm_compute. reflexivity.
Defined.

(** ** The requests in detail *)

Lemma Header_Add_head (h : gmap string (list string))
    (key value k first : string) (more : list string) :
  h !! k = Some (first :: more) →
  ∃ more', Header_Add h key value !! k = Some (first :: more').
Proof.
  unfold Header_Add. intros Hk.
  destruct (decide (CanonicalMIMEHeaderKey key = k)) as [<-|Hne].
  - rewrite lookup_insert_eq, Hk. cbn. eauto.
  - rewrite lookup_insert_ne by done. eauto.
Qed.

Lemma addValues_head (key : string) (values : list string)
    (h : gmap string (list string)) (k first : string) (more : list string) :
  h !! k = Some (first :: more) →
  ∃ more', addValues key values h !! k = Some (first :: more').
Proof.
  revert h more. induction values as [|value rest IH]; intros h more Hk.
  - cbn. eauto.
  - cbn. destruct (Header_Add_head h key value k first more Hk) as [more' Hk'].
    by apply (IH _ more').
Qed.

(** Copying headers appends: the first value under a name stays first. *)
Lemma copyHeaders_head (headers : list (string * list string))
    (h : gmap string (list string)) (k first : string) (more : list string) :
  h !! k = Some (first :: more) →
  ∃ more', copyHeaders headers h !! k = Some (first :: more').
Proof.
  revert h more.
  induction headers as [|[key values] rest IH]; intros h more Hk.
  - cbn. eauto.
  - cbn. destruct (addValues_head key values h k first more Hk)
      as [more' Hk'].
    by apply (IH _ more').
Qed.

Section Details.
Context `{Platform}.

(** X7: the file part of an upload is named [file]; for a path it carries
    the base name of the path, not the path, and the bytes of the file; for
    a byte slice it carries no file name and the bytes given.  One extra
    field follows it and nothing else. *)
Theorem file_part_of_upload
    (c : PDFClient) (path : string) (mode : Z) (data : list byte)
    (b : slice byte) (splits : slice Z) (ranges : slice (slice Z))
    (metadata : gmap string string) (w : World) :
  fs w !! path = Some (NFile mode data) →
  Forall (λ op : M (slice byte * option error),
      Forall (λ req, ∃ key value,
                Body req = [FilePart "file" (filepath_Base path) data;
                            FieldPart key value])
             (new_requests w (op w).2))
    (uploads c (VString path) splits ranges metadata) ∧
  Forall (λ op : M (slice byte * option error),
      Forall (λ req, ∃ key value,
                Body req = [FilePart "file" "" (slice_elems b);
                            FieldPart key value])
             (new_requests w (op w).2))
    (uploads c (VBytes b) splits ranges metadata).
Proof.
  intros Hfile. split.
  - eapply Forall2_Forall_l;
      [apply (uploads_requests c (VString path) splits ranges metadata w)|].
    apply Forall_true. intros [suffix key] op Hop. apply Forall_forall.
    intros req Hreq.
    destruct (Hop req Hreq) as (fn & fc & ct & value & Hread & ->).
    rewrite multipartRequest_one_field. exists key, value.
    cbn in Hread. unfold mbind, M_bind, os_ReadFile in Hread.
    rewrite Hfile in Hread. cbn in Hread. by simplify_eq.
  - eapply Forall2_Forall_l;
      [apply (uploads_requests c (VBytes b) splits ranges metadata w)|].
    apply Forall_true. intros [suffix key] op Hop. apply Forall_forall.
    intros req Hreq.
    destruct (Hop req Hreq) as (fn & fc & ct & value & Hread & ->).
    rewrite multipartRequest_one_field. exists key, value.
    cbn in Hread. by simplify_eq.
Qed.

(** X8: a client built from a base URL and a version reaches four
    endpoints: token validation is a GET of [base/version/token] with an
    empty body, and the uploads are POSTs to [base/version/pdf/split],
    [base/version/pdf/split-zip] and [base/version/pdf/metadata]. *)
Theorem endpoints_of_built_client
    (apiKey base version : string) (file : GoValue) (splits : slice Z)
    (ranges : slice (slice Z)) (metadata : gmap string string) (w : World) :
  let c := NewPDFClient apiKey [SetBaseURL base; SetAPIVersion version] in
  Forall (λ req, Body req = []) (new_requests w (ValidateToken c w).2) ∧
  Forall2 (λ w' target,
      Forall (λ req, (Method req, URL req) = target) (new_requests w w'))
    (service_worlds c file splits ranges metadata w)
    [("GET", (base +:+ "/" +:+ version) +:+ "/token");
     ("POST", (base +:+ "/" +:+ version) +:+ "/pdf/split");
     ("POST", (base +:+ "/" +:+ version) +:+ "/pdf/split-zip");
     ("POST", (base +:+ "/" +:+ version) +:+ "/pdf/metadata")].
Proof.
  intros c.
  pose proof (uploads_requests c file splits ranges metadata w) as Hups.
  unfold uploads in Hups.
  apply Forall2_cons_1 in Hups as [Hsplit Hups].
  apply Forall2_cons_1 in Hups as [Hzip Hups].
  apply Forall2_cons_1 in Hups as [Hmeta _].
  split.
  { apply Forall_forall. by intros req ->%ValidateToken_requests. }
  unfold service_worlds.
  repeat apply Forall2_cons_2; [| | | |apply Forall2_nil_2];
    apply Forall_forall; intros req Hreq.
  - by apply ValidateToken_requests in Hreq as ->.
  - by destruct (Hsplit req Hreq) as (fn & fc & ct & value & _ & ->).
  - by destruct (Hzip req Hreq) as (fn & fc & ct & value & _ & ->).
  - by destruct (Hmeta req Hreq) as (fn & fc & ct & value & _ & ->).
Qed.

(** X9: on every upload request the first value of [Content-Type] is the
    multipart content type with the boundary of the body, whatever headers
    the client holds: a [Content-Type] of the client is added behind it and
    does not replace it. *)
Theorem content_type_is_the_encoders
    (c : PDFClient) (file : GoValue) (splits : slice Z)
    (ranges : slice (slice Z)) (metadata : gmap string string) (w : World) :
  Forall (λ op : M (slice byte * option error),
      Forall (λ req, head (Header_Values (Header req) "Content-Type") =
                       Some multipart_content_type)
             (new_requests w (op w).2))
    (uploads c file splits ranges metadata).
Proof.
  eapply Forall2_Forall_l;
    [apply (uploads_requests c file splits ranges metadata w)|].
  apply Forall_true. intros [suffix key] op Hop. apply Forall_forall.
  intros req Hreq.
  destruct (Hop req Hreq) as (fn & fc & ct & value & _ & ->).
  unfold Header_Values. cbn [multipartRequest Header].
  change (CanonicalMIMEHeaderKey "Content-Type") with "Content-Type".
  destruct (copyHeaders_head (rangeMap (Headers c))
              (Header_Set ∅ "Content-Type" multipart_content_type)
              "Content-Type" multipart_content_type [])
    as [more Hlook].
  { unfold Header_Set.
    change (CanonicalMIMEHeaderKey "Content-Type") with "Content-Type".
    apply lookup_insert_eq. }
  unfold multipart_content_type in *. by rewrite Hlook.
Qed.

(** X10: a client built by [NewPDFClient] with the package's options sends
    no header of its own but [Authorization]: the token request has exactly
    that header, and an upload request exactly that and [Content-Type]. *)
Theorem built_client_headers
    (apiKey : string) (options : list ClientOption) (file : GoValue)
    (splits : slice Z) (ranges : slice (slice Z))
    (metadata : gmap string string) (w : World) :
  Forall is_setter options →
  let c := NewPDFClient apiKey options in
  Forall (λ req, Header req = {[ "Authorization" := [apiKey] ]})
    (new_requests w (ValidateToken c w).2) ∧
  Forall (λ op : M (slice byte * option error),
      Forall (λ req,
          Header req = <[ "Authorization" := [apiKey] ]>
                         {[ "Content-Type" := [multipart_content_type] ]})
        (new_requests w (op w).2))
    (uploads c file splits ranges metadata).
Proof.
  intros Hopts c.
  destruct (NewPDFClient_setters apiKey options Hopts) as [_ Hheaders].
  fold c in Hheaders. split.
  - apply Forall_forall. intros req ->%ValidateToken_requests. done.
  - eapply Forall2_Forall_l;
      [apply (uploads_requests c file splits ranges metadata w)|].
    apply Forall_true. intros [suffix key] op Hop. apply Forall_forall.
    intros req Hreq.
    destruct (Hop req Hreq) as (fn & fc & ct & value & _ & ->).
    cbn [multipartRequest Header]. rewrite Hheaders, rangeMap_singleton.
    cbn. unfold Header_Add, Header_Set.
    change (CanonicalMIMEHeaderKey "Content-Type") with "Content-Type".
    change (CanonicalMIMEHeaderKey "Authorization") with "Authorization".
    by rewrite lookup_insert_ne, lookup_empty.
Qed.

(** X11: the operations that talk to the service read files but never
    write them, and each sends at most one request. *)
Theorem service_calls_leave_files_alone
    (c : PDFClient) (file : GoValue) (splits : slice Z)
    (ranges : slice (slice Z)) (metadata : gmap string string) (w : World) :
  Forall (λ w', fs w' = fs w ∧ (length (new_requests w w') ≤ 1)%nat)
    (service_worlds c file splits ranges metadata w).
Proof.
  unfold service_worlds. apply Forall_cons_2.
  - rewrite ValidateToken_run. destruct (url_Parse _) as [err|]; cbn [snd].
    + rewrite new_requests_same. cbn. split; [done|lia].
    + rewrite new_requests_logged. cbn. split; [done|lia].
  - change [(Split c file splits w).2; (SplitZip c file ranges w).2;
            (EditMetadata c file metadata w).2]
      with ((λ op : M (slice byte * option error), (op w).2) <$>
              [Split c file splits; SplitZip c file ranges;
               EditMetadata c file metadata]).
    eapply Forall_fmap, Forall_impl; [apply uploads_outcome|].
    intros op [[err Hop]|(url & fd & fn & ef & Hop)]; cbn zeta in Hop;
      cbn; rewrite Hop; cbn [snd].
    + rewrite new_requests_same. cbn. split; [done|lia].
    + rewrite new_requests_logged. cbn. split; [done|lia].
Qed.

(** X12: when the file can be read and the URL parses, [EditMetadata]
    sends one request whose body is the file part and one field named
    [metadata] holding the JSON text of the mapping; when the mapping cannot
    be encoded it returns the encoder's error and sends nothing. *)
Theorem EditMetadata_field
    (c : PDFClient) (file : GoValue) (metadata : gmap string string)
    (w : World) (filename : string) (fileContent : slice byte)
    (contentType : string) :
  (readFile file w).1 = (filename, fileContent, contentType, None) →
  url_Parse (BaseURL c +:+ "/pdf/metadata") = None →
  match json_Marshal_map metadata with
  | Ok metadataJSON =>
      ∃ req,
        new_requests w (EditMetadata c file metadata w).2 = [req] ∧
        Body req = [FilePart "file" filename (slice_elems fileContent);
                    FieldPart "metadata" metadataJSON]
  | Err err => EditMetadata c file metadata w = ((None, Some err), w)
  end.
Proof.
  intros Hread Hurl. rewrite EditMetadata_run, Hread.
  destruct (json_Marshal_map metadata) as [js|err]; [|done].
  destruct (upload_one_field c _ fileContent filename "metadata" js w Hurl)
    as (req & Hsent & _ & _ & Hbody).
  eauto.
Qed.

(** X13: for any mapping of extra fields, the request that
    [makeMultipartPostRequest] sends to a URL that parses is a POST to that
    URL whose body starts with the file part and goes on with one field per
    entry of the mapping, each entry once, in some order. *)
Theorem multipart_body_shape
    (c : PDFClient) (url fileField : string) (fileData : slice byte)
    (filename : string) (extraFields : gmap string string) (w : World) :
  url_Parse url = None →
  ∃ req fields,
    new_requests w
      (makeMultipartPostRequest c url fileField fileData filename
         extraFields w).2 = [req] ∧
    Method req = "POST" ∧
    URL req = url ∧
    Body req = FilePart fileField filename (slice_elems fileData) :: fields ∧
    fields ≡ₚ field_part <$> map_to_list extraFields ∧
    length fields = size extraFields.
Proof.
  intros Hurl. rewrite makeMultipartPostRequest_run, Hurl. cbn [snd].
  rewrite new_requests_logged.
  eexists _, (field_part <$> rangeMap extraFields).
  repeat split.
  - by rewrite (rangeMap_perm _ extraFields).
  - by rewrite length_fmap, (rangeMap_perm _ extraFields), length_map_to_list.
Qed.

End Details.

Lemma file_part_witness :
  Forall (λ op : M (slice byte * option error),
      Forall (λ req, ∃ key value,
                Body req = [FilePart "file" "sample.pdf" pdf_bytes;
                            FieldPart key value])
             (new_requests sample_world (op sample_world).2))
    (uploads (H := platform_ok) sample_client (VString "input/sample.pdf")
       (Some [3; 7]) None ∅).
Proof.
  apply (file_part_of_upload (H := platform_ok) sample_client
           "input/sample.pdf" 420 pdf_bytes None (Some [3; 7]) None ∅
           sample_world).
  vm_compute. reflexivity.
Defined.

Lemma built_client_headers_witness :
  Forall (λ req, Header req = {[ "Authorization" := ["api-key"] ]})
    (new_requests sample_world
       (ValidateToken (H := platform_ok) sample_client sample_world).2).
Proof.
  apply (built_client_headers (H := platform_ok) "api-key"
           [SetBaseURL "http://127.0.0.1:5011"; SetAPIVersion "v1"]
           VNil None None ∅ sample_world).
  repeat constructor.
Defined.

Lemma EditMetadata_field_witness :
  ∃ req,
    new_requests sample_world
      (EditMetadata (H := platform_ok) sample_client
         (VString "input/sample.pdf") ∅ sample_world).2 = [req] ∧
    Body req = [FilePart "file" "sample.pdf" pdf_bytes;
                FieldPart "metadata" "{}"].
Proof.
  assert ((readFile (H := platform_ok) (VString "input/sample.pdf")
             sample_world).1 =
          ("sample.pdf", Some pdf_bytes, "application/pdf", None)) as Hread
    by (vm_compute; reflexivity).
  assert (url_Parse (Platform := platform_ok)
            (BaseURL sample_client +:+ "/pdf/metadata") = None) as Hurl
    by (vm_compute; reflexivity).
  exact (EditMetadata_field (H := platform_ok) sample_client
           (VString "input/sample.pdf") ∅ sample_world "sample.pdf"
           (Some pdf_bytes) "application/pdf" Hread Hurl).
Defined.

Lemma multipart_body_witness :
  ∃ req fields,
    new_requests sample_world
      (makeMultipartPostRequest (H := platform_ok) sample_client
         "http://127.0.0.1:5011/v1/pdf/merge" "file" (Some pdf_bytes)
         "sample.pdf" {[ "first" := "1"; "last" := "2" ]} sample_world).2 =
      [req] ∧
    Method req = "POST" ∧
    URL req = "http://127.0.0.1:5011/v1/pdf/merge" ∧
    Body req = FilePart "file" "sample.pdf" pdf_bytes :: fields ∧
    fields ≡ₚ field_part <$>
                map_to_list ({[ "first" := "1"; "last" := "2" ]}
                               : gmap string string) ∧
    length fields = size ({[ "first" := "1"; "last" := "2" ]}
                            : gmap string string).
Proof.
  apply (multipart_body_shape (H := platform_ok) sample_client
           "http://127.0.0.1:5011/v1/pdf/merge" "file" (Some pdf_bytes)
           "sample.pdf" {[ "first" := "1"; "last" := "2" ]} sample_world).
  vm_compute. reflexivity.
Defined.

(** ** Files: saving and reading back *)



(** X15: the course of the package's test of [Split]: the file is read,
    the service answers the request with status 200 and a body that ends
    well, and [Save] of the result under a path that is not empty reports no
    error.  Then [Split] has returned the whole body, [Save] returns
    nothing, and the file at the path holds the body. *)
Theorem Split_then_Save `{Platform}
    (c : PDFClient) (file : GoValue) (splits : slice Z) (w : World)
    (filename : string) (fileContent : slice byte) (contentType : string)
    (resp : HTTPResponse) (chunks : list (list byte)) (filePath : string) :
  (readFile file w).1 = (filename, fileContent, contentType, None) →
  url_Parse (BaseURL c +:+ "/pdf/split") = None →
  roundTrip (multipartRequest c (BaseURL c +:+ "/pdf/split") "file"
               fileContent filename
               {[ "splits" := json_encode_ints splits ]}) = Ok resp →
  RespStatusCode resp = 200 →
  RespBody resp = stream_of_chunks chunks →
  filePath ≠ "" →
  (Save c (Split c file splits w).1.1 filePath (Split c file splits w).2).1.2
    = None →
  let split := Split c file splits w in
  let save := Save c split.1.1 filePath split.2 in
  split.1 = (Some (concat chunks), None) ∧
  save.1 = (None, None) ∧
  ∃ mode, fs save.2 !! filePath = Some (NFile mode (concat chunks)).
Proof.
  intros Hread Hurl Hresp Hok Hbody Hpath. cbn zeta.
  rewrite Split_run, Hread, makeMultipartPostRequest_run, Hurl. cbn zeta.
  rewrite Hresp. cbn [upload_result fst snd].
  rewrite decide_False by (unfold http_StatusOK; by intros []).
  rewrite Hbody, io_ReadAll_chunks. cbn [fst snd].
  unfold Save. rewrite decide_True by done.
  unfold mbind, M_bind, os_WriteFile, log_request. cbn.
  destruct (fs w !! filePath) as [[mode old|mode]|]; cbn; [|done|];
    intros _; (split; [done|]); (split; [done|]);
    eexists; apply lookup_insert_eq.
Qed.

Lemma Split_then_Save_witness :
  ∃ mode,
    fs (Save sample_client
          (Split (H := platform_ok) sample_client
             (VString "input/sample.pdf") (Some [3; 7]) sample_world).1.1
          "output/split.pdf"
          (Split (H := platform_ok) sample_client
             (VString "input/sample.pdf") (Some [3; 7]) sample_world).2).2
      !! "output/split.pdf" = Some (NFile mode (concat [pdf_bytes])).
Proof.
  apply (Split_then_Save (H := platform_ok) sample_client
           (VString "input/sample.pdf") (Some [3; 7]) sample_world
           "sample.pdf" (Some pdf_bytes) "application/pdf"
           {| RespStatusCode := 200; RespStatus := "200 OK";
              RespBody := stream_of_chunks [pdf_bytes] |}
           [pdf_bytes] "output/split.pdf").
  all: try (vm_compute; reflexivity).
  discriminate.
Defined.

(** ** Extraction, entry by entry *)


(** No regular file appears or changes when a directory is made. *)
Lemma os_MkdirAll_files (path p : string) (perm mode : Z) (data : list byte)
    (w : World) :
  fs (os_MkdirAll path perm w).2 !! p = Some (NFile mode data) →
  fs w !! p = Some (NFile mode data).
Proof.
  unfold os_MkdirAll.
  destruct (fs w !! path) as [[mode' data'|mode']|] eqn:Hpath; cbn;
    try done.
  destruct (decide (path = p)) as [->|Hne].
  - by rewrite lookup_insert_eq.
  - by rewrite lookup_insert_ne.
Qed.



Lemma io_Copy_err (f : string) (rc : Stream) (w : World) :
  (io_Copy f rc w).1 = (io_ReadAll rc).2.
Proof.
  revert w. induction rc as [|data rest IH|err]; intros w; [done| |done].
  cbn. unfold mbind, M_bind. cbn. rewrite IH.
  by destruct (io_ReadAll rest).
Qed.



Section Entries.
Context `{Platform}.

Lemma extractFiles_file (outputPath : string) (file : ZipFile)
    (rest : list ZipFile) (w : World) :
  FileMode_IsDir (zf_Mode file) = false →
  extractFiles outputPath (file :: rest) w =
    match os_OpenFile_create_trunc (filepath_Join outputPath (zf_Name file))
            (zf_Mode file) w with
    | (Err err, w1) => (Some err, w1)
    | (Ok f, w1) =>
        match zf_Open file with
        | Err err => (Some err, w1)
        | Ok rc =>
            match io_Copy f rc w1 with
            | (Some err, w2) => (Some err, w2)
            | (None, w2) => extractFiles outputPath rest w2
            end
        end
    end.
Proof.
  intros Hdir. cbn. rewrite Hdir. unfold mbind, M_bind.
  destruct (os_OpenFile_create_trunc _ _ w) as [[f|err] w1]; [|done].
  destruct (zf_Open file) as [rc|err]; [|done].
  by destruct (io_Copy f rc w1) as [[err|] w2].
Qed.



Lemma extractFiles_ok_complete (outputPath : string) (files : list ZipFile)
    (w : World) :
  (extractFiles outputPath files w).1 = None →
  Forall (λ file, FileMode_IsDir (zf_Mode file) = true ∨
                  entry_complete file = true) files.
Proof.
  revert w. induction files as [|file rest IH]; intros w Hok; [done|].
  destruct (FileMode_IsDir (zf_Mode file)) eqn:Hdir.
  - rewrite (extractFiles_directory _ _ _ _ Hdir) in Hok.
    apply Forall_cons_2; [by left|by eapply IH].
  - rewrite (extractFiles_file _ _ _ _ Hdir) in Hok.
    destruct (os_OpenFile_create_trunc _ _ w) as [[f|err] w1]; [|done].
    destruct (zf_Open file) as [rc|err] eqn:Hrc; [|done].
    pose proof (io_Copy_err f rc w1) as Herr.
    destruct (io_Copy f rc w1) as [[err|] w2]; [done|].
    cbn in Herr. apply Forall_cons_2; [right|by eapply IH].
    unfold entry_complete. by rewrite Hrc, <- Herr.
Qed.

(** X17: when [Extract] returns no error, the archive was decoded and
    every entry that is not a directory could be opened and read to its
    end. *)
Theorem Extract_ok_means_complete
    (c : PDFClient) (zipBytes : slice byte) (outputPath : string)
    (w : World) :
  (Extract c zipBytes outputPath w).1 = None →
  ∃ files,
    zip_NewReader (slice_elems zipBytes) = Ok files ∧
    Forall (λ file, FileMode_IsDir (zf_Mode file) = true ∨
                    entry_complete file = true) files.
Proof.
  unfold Extract. destruct (zip_NewReader _) as [files|err]; [|done].
  intros Hok. exists files. split; [done|].
  by eapply extractFiles_ok_complete.
Qed.

End Entries.

Section Archives.
Context `{Platform}.


(** X19: the first entry that fails ends the extraction: [Extract] returns
    its error and the world as that entry left it, whatever entries follow
    in the archive. *)
Theorem Extract_stops_at_first_error
    (c : PDFClient) (zipBytes : slice byte) (outputPath : string)
    (w w1 w2 : World) (before after : list ZipFile) (file : ZipFile)
    (err : error) :
  zip_NewReader (slice_elems zipBytes) = Ok (before ++ file :: after) →
  extractFiles outputPath before w = (None, w1) →
  extractFiles outputPath [file] w1 = (Some err, w2) →
  Extract c zipBytes outputPath w = (Some err, w2).
Proof.
  intros Hzip Hbefore Hfile. unfold Extract. rewrite Hzip.
  rewrite extractFiles_app, Hbefore.
  change (file :: after) with ([file] ++ after).
  by rewrite extractFiles_app, Hfile.
Qed.

Lemma extractFiles_directories (outputPath : string) (files : list ZipFile)
    (w : World) :
  Forall (λ file, FileMode_IsDir (zf_Mode file) = true) files →
  (extractFiles outputPath files w).1 = None ∧
  ∀ p mode data,
    fs (extractFiles outputPath files w).2 !! p = Some (NFile mode data) →
    fs w !! p = Some (NFile mode data).
Proof.
  intros Hdirs. revert w.
  induction Hdirs as [|file rest Hdir _ IH]; intros w; [done|].
  rewrite (extractFiles_directory _ _ _ _ Hdir).
  destruct (IH (os_MkdirAll (filepath_Join outputPath (zf_Name file))
                  os_ModePerm w).2) as [Hok Hfiles].
  split; [done|]. intros p mode data Hp.
  by eapply os_MkdirAll_files, Hfiles.
Qed.

(** X20: an archive that holds directories only is always extracted
    without error, whatever is on the disk, and the extraction creates or
    changes no regular file. *)
Theorem Extract_directories_only
    (c : PDFClient) (zipBytes : slice byte) (outputPath : string)
    (w : World) (files : list ZipFile) :
  zip_NewReader (slice_elems zipBytes) = Ok files →
  Forall (λ file, FileMode_IsDir (zf_Mode file) = true) files →
  (Extract c zipBytes outputPath w).1 = None ∧
  ∀ p mode data,
    fs (Extract c zipBytes outputPath w).2 !! p = Some (NFile mode data) →
    fs w !! p = Some (NFile mode data).
Proof.
  intros Hzip Hdirs. unfold Extract. rewrite Hzip.
  by apply extractFiles_directories.
Qed.

(** X21: the example program prints one line.  It is [Token is valid:
    true] exactly when the URL parses and the service answers the token
    request with status 200; in every other case it is [Error:] followed by
    the text of the error, so the program never prints [Token is valid:
    false].  It sends the token request when the URL parses and nothing
    otherwise. *)
Theorem main_prints_one_line (w : World) :
  length (main w).1 = 1%nat ∧
  (main w).1 ≠ ["Token is valid: false"] ∧
  ((main w).1 = ["Token is valid: true"] ↔
     url_Parse (URL main_request) = None ∧
     ∃ resp, roundTrip main_request = Ok resp ∧ RespStatusCode resp = 200) ∧
  ((main w).1 = ["Token is valid: true"] ∨
   ∃ err, (main w).1 = ["Error: " +:+ error_Error err]) ∧
  new_requests w (main w).2 =
    match url_Parse (URL main_request) with
    | None => [main_request]
    | Some _ => []
    end.
Proof.
  unfold main, Legacy.ValidateToken, http_NewRequest. cbn.
  change (("https://data.fastpdfservice.com" +:+ "/" +:+ "v1") +:+ "/token")
    with (URL main_request).
  destruct (url_Parse (URL main_request)) as [err|]; cbn.
  { rewrite new_requests_same. repeat split; try done; eauto.
    by intros [? _]. }
  unfold mbind, M_bind, http_Do. cbn.
  change (set_Header _ _) with main_request.
  change {| fs := fs w; sent := sent w ++ [main_request] |}
    with (log_request main_request w).
  destruct (roundTrip main_request) as [resp|err]; cbn.
  - unfold http_StatusOK.
    destruct (decide (RespStatusCode resp ≠ 200)) as [Hne|Heq]; cbn;
      rewrite new_requests_logged.
    + repeat split; try done.
      * by intros [_ (resp' & [= <-] & ?)].
      * right. by exists (Errorf "failed to validate token").
    + apply dec_stable in Heq. repeat split; eauto.
  - rewrite new_requests_logged.
    repeat split; try done; eauto. by intros [_ (resp & ? & _)].
Qed.

End Archives.


Lemma Extract_ok_witness :
  ∃ files,
    zip_NewReader (Platform := platform_good) good_zip = Ok files ∧
    Forall (λ file, FileMode_IsDir (zf_Mode file) = true ∨
                    entry_complete file = true) files.
Proof.
  apply (Extract_ok_means_complete (H := platform_good) sample_client
           (Some good_zip) "out" empty_out_world).
  vm_compute. reflexivity.
Defined.


Lemma Extract_stops_witness :
  (Extract (H := platform_notes) sample_client (Some notes_zip) "out"
     empty_out_world).1 = Some (ExternalErr "zip: checksum error").
Proof.
  rewrite (Extract_stops_at_first_error (H := platform_notes) sample_client
             (Some notes_zip) "out" empty_out_world
             (extractFiles (H := platform_notes) "out"
                [docs_entry; notes_entry] empty_out_world).2
             (extractFiles (H := platform_notes) "out" [broken_entry]
                (extractFiles (H := platform_notes) "out"
                   [docs_entry; notes_entry] empty_out_world).2).2
             [docs_entry; notes_entry] [notes_entry] broken_entry
             (ExternalErr "zip: checksum error")).
  all: vm_compute; reflexivity.
Defined.

Lemma Extract_directories_witness :
  (Extract (H := platform_docs) sample_client (Some docs_zip) "out"
     blocked_world).1 = None.
Proof.
  apply (Extract_directories_only (H := platform_docs) sample_client
           (Some docs_zip) "out" blocked_world [docs_entry]).
  - vm_compute. reflexivity.
  - repeat constructor.
Defined.

(** ** Headers, value by value *)

Lemma Header_Add_values (h : gmap string (list string))
    (key value k : string) :
  default [] (Header_Add h key value !! k) =
    default [] (h !! k) ++
    (if decide (CanonicalMIMEHeaderKey key = k) then [value] else []).
Proof.
  unfold Header_Add. case_decide as Hk.
  - subst k. by rewrite lookup_insert_eq.
  - by rewrite lookup_insert_ne, app_nil_r.
Qed.

Lemma addValues_values (key : string) (values : list string)
    (h : gmap string (list string)) (k : string) :
  default [] (addValues key values h !! k) =
    default [] (h !! k) ++
    (if decide (CanonicalMIMEHeaderKey key = k) then values else []).
Proof.
  revert h. induction values as [|value rest IH]; intros h.
  - cbn. case_decide; by rewrite app_nil_r.
  - change (addValues key (value :: rest) h)
      with (addValues key rest (Header_Add h key value)).
    rewrite IH, Header_Add_values.
    case_decide; [by rewrite <- app_assoc|by rewrite !app_nil_r].
Qed.

Lemma copyHeaders_values (headers : list (string * list string))
    (h : gmap string (list string)) (k : string) :
  default [] (copyHeaders headers h !! k) =
    default [] (h !! k) ++
    concat (snd <$> filter (λ kv, CanonicalMIMEHeaderKey kv.1 = k) headers).
Proof.
  revert h. induction headers as [|[key values] rest IH]; intros h.
  - cbn. by rewrite app_nil_r.
  - change (copyHeaders ((key, values) :: rest) h)
      with (copyHeaders rest (addValues key values h)).
    rewrite IH, addValues_values, filter_cons. cbn [fst snd].
    case_decide; cbn; [by rewrite <- app_assoc|by rewrite app_nil_r].
Qed.

Section HeaderValues.
Context `{Platform}.

(** X22: the values an upload request has under a header name are, in this
    order: the multipart content type if the name is [Content-Type], then
    the values of every header of the client whose canonical name is that
    name, each header's values together and in the client's order.  Nothing
    is dropped, merged or repeated. *)
Theorem upload_header_values
    (c : PDFClient) (file : GoValue) (splits : slice Z)
    (ranges : slice (slice Z)) (metadata : gmap string string) (w : World) :
  Forall (λ op : M (slice byte * option error),
      Forall (λ req, ∀ key,
          Header_Values (Header req) key =
            (if decide (CanonicalMIMEHeaderKey key = "Content-Type")
             then [multipart_content_type] else []) ++
            concat (snd <$> filter (λ kv, CanonicalMIMEHeaderKey kv.1 =
                                          CanonicalMIMEHeaderKey key)
                              (rangeMap (Headers c))))
        (new_requests w (op w).2))
    (uploads c file splits ranges metadata).
Proof.
  eapply Forall2_Forall_l;
    [apply (uploads_requests c file splits ranges metadata w)|].
  apply Forall_true. intros [suffix field] op Hop. apply Forall_forall.
  intros req Hreq key.
  destruct (Hop req Hreq) as (fn & fc & ct & value & _ & ->).
  unfold Header_Values. cbn [multipartRequest Header].
  rewrite copyHeaders_values. f_equal.
  unfold Header_Set, multipart_content_type.
  change (CanonicalMIMEHeaderKey "Content-Type") with "Content-Type".
  case_decide as Hk.
  - by rewrite Hk, lookup_insert_eq.
  - by rewrite lookup_insert_ne, lookup_empty.
Qed.

(** X23: nothing about the file's bytes or the page numbers is checked
    before sending: for a byte slice, nil or empty included, and any
    breakpoints or ranges, [Split] and [SplitZip] send exactly one request
    as soon as the endpoint URL parses. *)
Theorem no_local_validation
    (c : PDFClient) (b : slice byte) (splits : slice Z)
    (ranges : slice (slice Z)) (w : World) :
  url_Parse (BaseURL c +:+ "/pdf/split") = None →
  url_Parse (BaseURL c +:+ "/pdf/split-zip") = None →
  (∃ req, new_requests w (Split c (VBytes b) splits w).2 = [req] ∧
          Body req = [FilePart "file" "" (slice_elems b);
                      FieldPart "splits" (json_encode_ints splits)]) ∧
  (∃ req, new_requests w (SplitZip c (VBytes b) ranges w).2 = [req] ∧
          Body req = [FilePart "file" "" (slice_elems b);
                      FieldPart "splits" (json_encode_intss ranges)]).
Proof.
  intros Hsplit Hzip. split.
  - rewrite Split_run. cbn [readFile mret M_ret fst].
    destruct (upload_one_field c _ b "" "splits" (json_encode_ints splits)
                w Hsplit) as (req & Hsent & _ & _ & Hbody).
    eauto.
  - rewrite SplitZip_run. cbn [readFile mret M_ret fst].
    destruct (upload_one_field c _ b "" "splits" (json_encode_intss ranges)
                w Hzip) as (req & Hsent & _ & _ & Hbody).
    eauto.
Qed.

(** X24: after construction the operations read the client's base URL and
    headers and nothing else: two clients that agree on these two fields
    behave alike in every operation, whatever their key, version and image
    formats. *)
Theorem operations_read_base_url_and_headers
    (c1 c2 : PDFClient) (file : GoValue) (splits : slice Z)
    (ranges : slice (slice Z)) (metadata : gmap string string)
    (content zipBytes : slice byte) (filePath outputPath : string)
    (w : World) :
  BaseURL c1 = BaseURL c2 →
  Headers c1 = Headers c2 →
  ValidateToken c1 w = ValidateToken c2 w ∧
  Split c1 file splits w = Split c2 file splits w ∧
  SplitZip c1 file ranges w = SplitZip c2 file ranges w ∧
  EditMetadata c1 file metadata w = EditMetadata c2 file metadata w ∧
  Save c1 content filePath w = Save c2 content filePath w ∧
  Extract c1 zipBytes outputPath w = Extract c2 zipBytes outputPath w.
Proof.
  intros Hurl Hheaders.
  assert (∀ url fd fn ef,
            makeMultipartPostRequest c1 url "file" fd fn ef w =
            makeMultipartPostRequest c2 url "file" fd fn ef w) as Hpost.
  { intros. rewrite !makeMultipartPostRequest_run.
    unfold multipartRequest. by rewrite Hheaders. }
  repeat split.
  - rewrite !ValidateToken_run. unfold tokenRequest.
    by rewrite Hurl, Hheaders.
  - rewrite !Split_run, Hurl.
    by destruct (readFile file w).1 as [[[? ?] ?] [?|]].
  - rewrite !SplitZip_run, Hurl.
    by destruct (readFile file w).1 as [[[? ?] ?] [?|]].
  - rewrite !EditMetadata_run, Hurl.
    destruct (readFile file w).1 as [[[? ?] ?] [?|]]; [done|].
    by destruct (json_Marshal_map metadata).
Qed.

End HeaderValues.

Lemma no_local_validation_witness :
  ∃ req,
    new_requests sample_world
      (Split (H := platform_ok) sample_client (VBytes None) None
         sample_world).2 = [req] ∧
    Body req = [FilePart "file" "" []; FieldPart "splits" "null"].
Proof.
  apply (no_local_validation (H := platform_ok) sample_client None None None
           sample_world); vm_compute; reflexivity.
Defined.

(** Changing the key of a client after it was built does not change what
    it sends. *)
Lemma operations_witness :
  ValidateToken (H := platform_ok)
    {| APIVersion := "v9"; BaseURL := BaseURL sample_client;
       APIKey := "another-key"; Headers := Headers sample_client;
       SupportedImageFormats := [] |} sample_world =
  ValidateToken (H := platform_ok) sample_client sample_world.
Proof.
  apply (operations_read_base_url_and_headers (H := platform_ok)
           {| APIVersion := "v9"; BaseURL := BaseURL sample_client;
              APIKey := "another-key"; Headers := Headers sample_client;
              SupportedImageFormats := [] |}
           sample_client VNil None None ∅ None None "" "" sample_world);
    reflexivity.
Defined.
